(** * seller-apis: stock and price synchronisation (seller.py, market.py)

    A shallow embedding of the reconciliation, normalisation, batching and
    catalogue pagination code of [seller.py] (Ozon) and [market.py]
    (Yandex Market), with the properties of the written specification
    stated and proved (or refuted) over it.

    Conventions.
    - A Python [str] is a [string]: the UTF-8 bytes of the text.  The code
      only ever looks for the ASCII characters ".", "0".."9", ">" in a
      string, and no byte of a multi-byte UTF-8 sequence is ASCII, so the
      byte view and the code-point view agree on everything done here.
    - Python [int] is [Z].
    - [int()] of a text is the interpreter's: the development ranges over
      every function with the laws of [Py.PyInt]; closed examples run the
      code with [Py.ascii_int].
    - A dynamically typed cell of the vendor spreadsheet is a [pyval].
    - An exception is a [Raise e] result; a function that mutates its
      [offer_ids] argument is a computation over that list as state. *)

From Stdlib Require Import List String Ascii ZArith Lia Bool Arith.
From Stdlib Require Import DecimalString Permutation.
From Stdlib Require DecimalPos.
Import ListNotations.

Open Scope string_scope.
Open Scope list_scope.
Open Scope Z_scope.

(** ** Python values, exceptions *)

Inductive exn : Type :=
| AttributeError
| TypeError
| ValueError
| IndexError
| OverflowError.

Inductive result (A : Type) : Type :=
| Ok (a : A)
| Raise (e : exn).
Arguments Ok {A} a.
Arguments Raise {A} e.

(** What [watch.get(key)] can give for a row of [pd.read_excel(...)
    .to_dict(orient="records")]: a text cell, an integral numeric cell, a
    fractional numeric cell, or [None] when the column is missing.  The
    code looks at a float only through [str()] and [int()], so a float is
    given by the text [str()] prints for it and by what [int()] makes of
    it (its truncation, or the exception for an infinity or a NaN). *)
Inductive pyval : Type :=
| VNone
| VInt (z : Z)
| VFloat (repr : string) (trunc : result Z)
| VStr (s : string).

Module Py.

(** [str(v)] *)
Definition str (v : pyval) : string :=
  match v with
  | VNone => "None"
  | VInt z => NilZero.string_of_int (Z.to_int z)
  | VFloat repr _ => repr
  | VStr s => s
  end.

Definition is_digit (c : ascii) : bool :=
  let n := nat_of_ascii c in ((48 <=? n) && (n <=? 57))%nat.

Definition digit_val (c : ascii) : Z := Z.of_nat (nat_of_ascii c) - 48.

(** The ASCII blanks [int()] skips before and after a literal: tab,
    line feed, vertical tab, form feed, carriage return, space. *)
Definition is_space (c : ascii) : bool :=
  let n := nat_of_ascii c in
  (((9 <=? n) && (n <=? 13)) || (n =? 32))%nat.

Fixpoint lstrip (s : string) : string :=
  match s with
  | EmptyString => EmptyString
  | String c rest => if is_space c then lstrip rest else s
  end.

Fixpoint all_space (s : string) : bool :=
  match s with
  | EmptyString => true
  | String c rest => is_space c && all_space rest
  end.

Fixpoint count_digits (s : string) : nat :=
  match s with
  | EmptyString => O
  | String c rest =>
      if is_digit c then S (count_digits rest) else count_digits rest
  end.

(** Digits of a decimal literal, most significant first; one underscore
    is allowed between two digits and blanks may follow the last digit.
    [prev_digit] tells whether the previous character was a digit. *)
Fixpoint digits (s : string) (prev_digit : bool) (acc : Z) : option Z :=
  match s with
  | EmptyString => if prev_digit then Some acc else None
  | String c rest =>
      if is_digit c then digits rest true (10 * acc + digit_val c)
      else if prev_digit && Ascii.eqb c "_" then
        match rest with
        | String d _ => if is_digit d then digits rest false acc else None
        | EmptyString => None
        end
      else if prev_digit && is_space c && all_space rest then Some acc
      else None
  end.

(** The number of digits [int()] accepts in a literal by default
    ([sys.get_int_max_str_digits()]). *)
Definition max_str_digits : nat := 4300.

(** [int(s)], base 10, on a text of ASCII characters: leading blanks, an
    optional sign, decimal digits, trailing blanks; [ValueError] for
    anything else and for a literal of more than [max_str_digits] digits.
    On a text with other characters [int()] also takes the blanks and the
    decimal digits of other scripts, which this function does not: it is
    one [int()] among those the development ranges over (see [PyInt]), the
    one used to run the code on ASCII examples. *)
Definition ascii_int (s : string) : result Z :=
  let body := lstrip s in
  let '(neg, ds) :=
    match body with
    | String "-" rest => (true, rest)
    | String "+" rest => (false, rest)
    | _ => (false, body)
    end in
  if (max_str_digits <? count_digits ds)%nat then Raise ValueError
  else
    match digits ds false 0 with
    | Some n => Ok (if neg then - n else n)
    | None => Raise ValueError
    end.

(** [int()] applied to a text is the interpreter's: the code is modelled
    over any function [int_text] that has what the interpreter's has for
    certain: on a text it raises nothing but [ValueError], it rejects the
    empty text, and it reads an ASCII decimal literal of at most
    [max_str_digits] characters, and the same literal after a minus sign,
    as the number the literal writes. *)
Class PyInt : Type := {
  int_text : string -> result Z;
  int_text_raises : forall s e, int_text s = Raise e -> e = ValueError;
  int_text_empty : int_text "" = Raise ValueError;
  int_text_digits :
    forall s n,
      (String.length s <= max_str_digits)%nat ->
      digits s false 0 = Some n ->
      int_text s = Ok n /\ int_text (String "-" s) = Ok (- n)
}.

#[global] Instance ascii_PyInt : PyInt.
Proof.
  refine {| int_text := ascii_int |}.
  - intros s e. unfold ascii_int.
    destruct (match lstrip s with
              | String "-" rest => (true, rest)
              | String "+" rest => (false, rest)
              | _ => (false, lstrip s)
              end) as [neg ds].
    destruct (max_str_digits <? count_digits ds)%nat; [congruence|].
    destruct (digits ds false 0); congruence.
  - reflexivity.
  - intros s n Hlen Hdigits.
    assert (Hcount : forall t, (count_digits t <= String.length t)%nat).
    { induction t as [|c t IH]; simpl; [lia|].
      destruct (is_digit c); lia. }
    assert (Hlimit : (max_str_digits <? count_digits s)%nat = false).
    { apply Nat.ltb_ge. specialize (Hcount s). lia. }
    destruct s as [|c rest]; [discriminate|].
    assert (Hc : is_digit c = true).
    { simpl in Hdigits. destruct (is_digit c); [reflexivity|discriminate]. }
    split.
    + unfold ascii_int.
      assert (Hhead :
                lstrip (String c rest) = String c rest
                /\ match String c rest with
                   | String "-" r => (true, r)
                   | String "+" r => (false, r)
                   | _ => (false, String c rest)
                   end = (false, String c rest)).
      { destruct c as [[|] [|] [|] [|] [|] [|] [|] [|]];
          try discriminate Hc; split; reflexivity. }
      destruct Hhead as [-> ->]. cbv beta iota zeta.
      now rewrite Hlimit, Hdigits.
    + unfold ascii_int.
      change (lstrip (String "-" (String c rest)))
        with (String "-" (String c rest)).
      cbv beta iota zeta. now rewrite Hlimit, Hdigits.
Defined.

(** [int(v)] *)
Definition int `{PyInt} (v : pyval) : result Z :=
  match v with
  | VNone => Raise TypeError
  | VInt z => Ok z
  | VFloat _ trunc => trunc
  | VStr s => int_text s
  end.

(** [s.split(sep)] for a one-character separator: the maximal pieces
    between occurrences of [sep]; never the empty list. *)
Fixpoint split (sep : ascii) (s : string) : list string :=
  match s with
  | EmptyString => [EmptyString]
  | String c rest =>
      if Ascii.eqb c sep then EmptyString :: split sep rest
      else
        match split sep rest with
        | piece :: pieces => String c piece :: pieces
        | [] => [String c EmptyString]
        end
  end.

(** [l[0]] *)
Definition index0 {A} (l : list A) : result A :=
  match l with
  | x :: _ => Ok x
  | [] => Raise IndexError
  end.

(** [re.sub("[^0-9]", "", s)]: every character outside "0".."9" is
    deleted. *)
Fixpoint re_sub_non_digits (s : string) : string :=
  match s with
  | EmptyString => EmptyString
  | String c rest =>
      if is_digit c then String c (re_sub_non_digits rest)
      else re_sub_non_digits rest
  end.

(** [x in l] for a list of strings *)
Definition contains (x : string) (l : list string) : bool :=
  existsb (String.eqb x) l.

(** [l.remove(x)]: the first element equal to [x] goes; [ValueError]
    when there is none. *)
Fixpoint remove (x : string) (l : list string) : result (list string) :=
  match l with
  | [] => Raise ValueError
  | y :: rest =>
      if String.eqb y x then Ok rest
      else match remove x rest with
           | Ok rest' => Ok (y :: rest')
           | Raise e => Raise e
           end
  end.

(** [range(start, stop, step)] as the list it enumerates; a zero step
    is a [ValueError]. *)
Definition range_len (start stop step : Z) : Z :=
  if (0 <? step) && (start <? stop) then (stop - start - 1) / step + 1
  else if (step <? 0) && (stop <? start) then (start - stop - 1) / (- step) + 1
  else 0.

Definition range (start stop step : Z) : result (list Z) :=
  if step =? 0 then Raise ValueError
  else Ok (map (fun k => start + Z.of_nat k * step)
               (seq 0 (Z.to_nat (range_len start stop step)))).

(** [l[lo:hi]]: negative bounds count from the end, both are clamped to
    the list. *)
Definition clamp (len i : Z) : Z :=
  if i <? 0 then Z.max 0 (i + len) else Z.min i len.

Definition slice {A} (l : list A) (lo hi : Z) : list A :=
  let len := Z.of_nat (List.length l) in
  let lo' := clamp len lo in
  let hi' := clamp len hi in
  firstn (Z.to_nat (hi' - lo')) (skipn (Z.to_nat lo') l).

End Py.

(** ** Exceptions and the mutable [offer_ids] list

    [M A] is a computation that may raise and that reads and updates the
    one list object the caller passed as [offer_ids]. *)

Definition M (A : Type) : Type := list string -> result A * list string.

Definition ret {A} (a : A) : M A := fun s => (Ok a, s).

Definition bind {A B} (c : M A) (k : A -> M B) : M B :=
  fun s =>
    match c s with
    | (Ok a, s') => k a s'
    | (Raise e, s') => (Raise e, s')
    end.

Definition lift {A} (r : result A) : M A := fun s => (r, s).

(** Reading the list object. *)
Definition get : M (list string) := fun s => (Ok s, s).

(** [offer_ids.remove(x)] on the list object. *)
Definition list_remove (x : string) : M unit :=
  fun s =>
    match Py.remove x s with
    | Ok s' => (Ok tt, s')
    | Raise e => (Raise e, s)
    end.

Notation "x <- c ;; k" := (bind c (fun x => k))
  (at level 61, c at next level, right associativity).
Notation "c ;;; k" := (bind c (fun _ => k))
  (at level 61, right associativity).

(** [for x in xs: body], the loop-carried local being threaded through. *)
Fixpoint for_in {A L} (xs : list A) (body : A -> L -> M L) (acc : L) : M L :=
  match xs with
  | [] => ret acc
  | x :: rest => acc' <- body x acc ;; for_in rest body acc'
  end.

(** A row of the vendor spreadsheet: what [watch.get("Код")],
    [watch.get("Количество")] and [watch.get("Цена")] return. *)
Record watch : Type := {
  Kod : pyval;
  Kolichestvo : pyval;
  Tsena : pyval
}.

(** ** seller.py *)

Module Seller.

Record product : Type := { offer_id : string }.

(** The ["result"] object of one [/v2/product/list] response. *)
Record product_page : Type := {
  items : list product;
  total : Z;
  last_id : string
}.

Record stock_record : Type := {
  stock_offer_id : string;   (* "offer_id" *)
  stock : Z                  (* "stock" *)
}.

Record price_record : Type := {
  auto_action_enabled : string;
  currency_code : string;
  price_offer_id : string;   (* "offer_id" *)
  old_price : string;
  price : string
}.

Section Catalog.
(** The marketplace: [get_product_list] is a request against a world
    [W] that answers and moves on. *)
Variable W : Type.
Variable get_product_list : string -> string -> string -> W -> product_page * W.
Variables client_id seller_token : string.

(** The [while True] loop of [get_offer_ids]; [None] when [fuel]
    iterations did not reach the [break]. *)
Fixpoint fetch_loop (fuel : nat) (last_id : string)
         (product_list : list product) (w : W)
  : option (list product * W) :=
  match fuel with
  | O => None
  | S fuel' =>
      let '(some_prod, w') :=
        get_product_list last_id client_id seller_token w in
      let product_list' := product_list ++ items some_prod in
      let total := total some_prod in
      let last_id' := Seller.last_id some_prod in
      if total =? Z.of_nat (List.length product_list')
      then Some (product_list', w')
      else fetch_loop fuel' last_id' product_list' w'
  end.

Definition get_offer_ids (fuel : nat) (w : W) : option (list string * W) :=
  match fetch_loop fuel "" [] w with
  | None => None
  | Some (product_list, w') =>
      let offer_ids :=
        fold_left (fun offer_ids product => offer_ids ++ [offer_id product])
                  product_list [] in
      Some (offer_ids, w')
  end.

(** The locals [last_id], [product_list] and the world before request
    number [k] (from 0), for a loop that has not stopped so far. *)
Fixpoint before_request (k : nat) (w : W) : string * list product * W :=
  match k with
  | O => ("", [], w)
  | S k' =>
      let '(last_id, product_list, w1) := before_request k' w in
      let '(some_prod, w2) :=
        get_product_list last_id client_id seller_token w1 in
      (Seller.last_id some_prod, product_list ++ items some_prod, w2)
  end.

(** The loop entered with the locals [st]. *)
Definition resume (fuel : nat) (st : string * list product * W)
  : option (list product * W) :=
  let '(last_id, product_list, w) := st in
  fetch_loop fuel last_id product_list w.

(** The answer to request number [k]. *)
Definition response (k : nat) (w : W) : product_page :=
  let '(last_id, _, w1) := before_request k w in
  fst (get_product_list last_id client_id seller_token w1).

(** The pages answered to the requests [0 .. k]. *)
Definition pages_upto (k : nat) (w : W) : list product_page :=
  map (fun j => response j w) (seq 0 (S k)).

Definition world_after (k : nat) (w : W) : W :=
  snd (before_request (S k) w).

(** The end-of-catalogue signal: the total reported by page [k] is the
    number of items fetched on the pages [0 .. k]. *)
Definition signals_end (k : nat) (w : W) : bool :=
  total (response k w)
  =? Z.of_nat (List.length (flat_map items (pages_upto k w))).

Definition first_signal (k : nat) (w : W) : Prop :=
  signals_end k w = true
  /\ forall j, (j < k)%nat -> signals_end j w = false.
End Catalog.

Definition page_ids (p : product_page) : list string :=
  map offer_id (items p).

(** A marketplace that answers from a fixed script of pages, whatever is
    asked, and with an empty catalogue once the script is used up. *)
Definition scripted (last_id client_id seller_token : string)
           (script : list product_page) : product_page * list product_page :=
  match script with
  | p :: rest => (p, rest)
  | [] => ({| items := []; total := 0; last_id := "" |}, [])
  end.

Definition price_conversion (price : pyval) : result string :=
  match price with
  | VStr s =>
      match Py.index0 (Py.split "." s) with
      | Ok integer_part => Ok (Py.re_sub_non_digits integer_part)
      | Raise e => Raise e
      end
  | VNone | VInt _ | VFloat _ _ => Raise AttributeError
  end.

Definition create_stocks `{PI : Py.PyInt} (watch_remnants : list watch)
  : M (list stock_record) :=
  stocks <-
    for_in watch_remnants
      (fun watch stocks =>
         offer_ids <- get ;;
         if Py.contains (Py.str (Kod watch)) offer_ids then
           let count := Py.str (Kolichestvo watch) in
           stock <- (if (count =? ">10")%string then ret 100
                     else if (count =? "1")%string then ret 0
                     else lift (Py.int (Kolichestvo watch))) ;;
           let stocks' :=
             stocks ++ [ {| stock_offer_id := Py.str (Kod watch);
                            stock := stock |} ] in
           list_remove (Py.str (Kod watch)) ;;;
           ret stocks'
         else ret stocks)
      [] ;;
  offer_ids <- get ;;
  for_in offer_ids
    (fun offer_id stocks =>
       ret (stocks ++ [ {| stock_offer_id := offer_id; stock := 0 |} ]))
    stocks.

Definition create_prices (watch_remnants : list watch)
  : M (list price_record) :=
  for_in watch_remnants
    (fun watch prices =>
       offer_ids <- get ;;
       if Py.contains (Py.str (Kod watch)) offer_ids then
         converted <- lift (price_conversion (Tsena watch)) ;;
         let price :=
           {| auto_action_enabled := "UNKNOWN";
              currency_code := "RUB";
              price_offer_id := Py.str (Kod watch);
              old_price := "0";
              price := converted |} in
         ret (prices ++ [price])
       else ret prices)
    [].

(** The generator [divide], as the list of the chunks it yields. *)
Definition divide {A} (lst : list A) (n : Z) : result (list (list A)) :=
  match Py.range 0 (Z.of_nat (List.length lst)) n with
  | Ok starts => Ok (map (fun i => Py.slice lst i (i + n)) starts)
  | Raise e => Raise e
  end.

(** The body of [main] after the catalogue and the feed are loaded: the
    batches handed to [update_stocks] and to [update_price], computed
    over one and the same [offer_ids] list. *)
Definition main_batches `{PI : Py.PyInt} (watch_remnants : list watch)
  : M (list (list stock_record) * list (list price_record)) :=
  stocks <- create_stocks watch_remnants ;;
  stock_batches <- lift (divide stocks 100) ;;
  prices <- create_prices watch_remnants ;;
  price_batches <- lift (divide prices 900) ;;
  ret (stock_batches, price_batches).

End Seller.

(** ** market.py *)

Module Market.

Record offer : Type := { shopSku : string }.
Record entry : Type := { entry_offer : offer }.          (* "offer" *)
Record paging_info : Type := { nextPageToken : option string }.

(** The ["result"] object of one [offer-mapping-entries] response; an
    absent ["nextPageToken"] is [None]. *)
Record product_page : Type := {
  offerMappingEntries : list entry;
  paging : paging_info
}.

Record stock_item : Type := {
  count : Z;
  type : string;
  updatedAt : string
}.

Record stock_record : Type := {
  sku : string;
  warehouseId : string;
  items : list stock_item
}.

Record price_value : Type := {
  value : Z;
  currencyId : string
}.

Record price_record : Type := {
  id : string;
  price : price_value
}.

(** [not page] for a token that is a string or [None]. *)
Definition falsy (page : option string) : bool :=
  match page with
  | None => true
  | Some s => String.eqb s ""
  end.

(** The page token sent with a request: [""] first, then whatever the
    last response carried. *)
Section Catalog.
Variable W : Type.
Variable get_product_list : option string -> string -> string -> W -> product_page * W.
Variables campaign_id market_token : string.

Fixpoint fetch_loop (fuel : nat) (page : option string)
         (product_list : list entry) (w : W)
  : option (list entry * W) :=
  match fuel with
  | O => None
  | S fuel' =>
      let '(some_prod, w') :=
        get_product_list page campaign_id market_token w in
      let product_list' := product_list ++ offerMappingEntries some_prod in
      let page' := nextPageToken (paging some_prod) in
      if falsy page'
      then Some (product_list', w')
      else fetch_loop fuel' page' product_list' w'
  end.

Definition get_offer_ids (fuel : nat) (w : W) : option (list string * W) :=
  match fetch_loop fuel (Some "") [] w with
  | None => None
  | Some (product_list, w') =>
      let offer_ids :=
        fold_left
          (fun offer_ids product =>
             offer_ids ++ [shopSku (entry_offer product)])
          product_list [] in
      Some (offer_ids, w')
  end.

(** The locals [page], [product_list] and the world before request
    number [k] (from 0), for a loop that has not stopped so far. *)
Fixpoint before_request (k : nat) (w : W)
  : option string * list entry * W :=
  match k with
  | O => (Some "", [], w)
  | S k' =>
      let '(page, product_list, w1) := before_request k' w in
      let '(some_prod, w2) :=
        get_product_list page campaign_id market_token w1 in
      (nextPageToken (paging some_prod),
       product_list ++ offerMappingEntries some_prod, w2)
  end.

(** The loop entered with the locals [st]. *)
Definition resume (fuel : nat) (st : option string * list entry * W)
  : option (list entry * W) :=
  let '(page, product_list, w) := st in
  fetch_loop fuel page product_list w.

(** The answer to request number [k]. *)
Definition response (k : nat) (w : W) : product_page :=
  let '(page, _, w1) := before_request k w in
  fst (get_product_list page campaign_id market_token w1).

(** The pages answered to the requests [0 .. k]. *)
Definition pages_upto (k : nat) (w : W) : list product_page :=
  map (fun j => response j w) (seq 0 (S k)).

Definition world_after (k : nat) (w : W) : W :=
  snd (before_request (S k) w).

(** The end-of-catalogue signal: page [k] carries no next-page token,
    or an empty one. *)
Definition signals_end (k : nat) (w : W) : bool :=
  falsy (nextPageToken (paging (response k w))).

Definition first_signal (k : nat) (w : W) : Prop :=
  signals_end k w = true
  /\ forall j, (j < k)%nat -> signals_end j w = false.
End Catalog.

Definition page_ids (p : product_page) : list string :=
  map (fun e => shopSku (entry_offer e)) (offerMappingEntries p).

(** A marketplace that answers from a fixed script of pages, whatever is
    asked, and with an empty last page once the script is used up. *)
Definition scripted (page : option string) (campaign_id market_token : string)
           (script : list product_page) : product_page * list product_page :=
  match script with
  | p :: rest => (p, rest)
  | [] => ({| offerMappingEntries := [];
              paging := {| nextPageToken := None |} |}, [])
  end.

(** [date] stands for the UTC time stamp taken at the start of the call. *)
Definition create_stocks `{PI : Py.PyInt} (date : string)
           (watch_remnants : list watch) (warehouse_id : string)
  : M (list stock_record) :=
  stocks <-
    for_in watch_remnants
      (fun watch stocks =>
         offer_ids <- get ;;
         if Py.contains (Py.str (Kod watch)) offer_ids then
           let count := Py.str (Kolichestvo watch) in
           stock <- (if (count =? ">10")%string then ret 100
                     else if (count =? "1")%string then ret 0
                     else lift (Py.int (Kolichestvo watch))) ;;
           let stocks' :=
             stocks ++ [ {| sku := Py.str (Kod watch);
                            warehouseId := warehouse_id;
                            items := [ {| count := stock;
                                          type := "FIT";
                                          updatedAt := date |} ] |} ] in
           list_remove (Py.str (Kod watch)) ;;;
           ret stocks'
         else ret stocks)
      [] ;;
  offer_ids <- get ;;
  for_in offer_ids
    (fun offer_id stocks =>
       ret (stocks ++ [ {| sku := offer_id;
                           warehouseId := warehouse_id;
                           items := [ {| count := 0;
                                         type := "FIT";
                                         updatedAt := date |} ] |} ]))
    stocks.

Definition create_prices `{PI : Py.PyInt} (watch_remnants : list watch)
  : M (list price_record) :=
  for_in watch_remnants
    (fun watch prices =>
       offer_ids <- get ;;
       if Py.contains (Py.str (Kod watch)) offer_ids then
         converted <- lift (Seller.price_conversion (Tsena watch)) ;;
         value <- lift (Py.int_text converted) ;;
         let price :=
           {| id := Py.str (Kod watch);
              price := {| value := value; currencyId := "RUR" |} |} in
         ret (prices ++ [price])
       else ret prices)
    [].

End Market.

(** ** Vocabulary of the specification *)

(** Does the text contain the delimiter "."? *)
Fixpoint contains_period (s : string) : bool :=
  match s with
  | EmptyString => false
  | String c rest => Ascii.eqb c "." || contains_period rest
  end.

(** Stock normalisation in the specification's words: the exact text
    [">10"] is 100, the exact text ["1"] is 0, anything else is parsed as
    an integer directly. *)
Definition normalize `{PI : Py.PyInt} (quantity : pyval) : result Z :=
  if (Py.str quantity =? ">10")%string then Ok 100
  else if (Py.str quantity =? "1")%string then Ok 0
  else Py.int quantity.

Definition quantity_ok `{PI : Py.PyInt} (watch : watch) : bool :=
  match normalize (Kolichestvo watch) with
  | Ok _ => true
  | Raise _ => false
  end.

(** The item codes of the vendor records, as compared with [offer_ids]. *)
Definition codes (watch_remnants : list watch) : list string :=
  map (fun watch => Py.str (Kod watch)) watch_remnants.

(** The identifiers without a vendor record. *)
Definition unmatched (watch_remnants : list watch) (offer_ids : list string)
  : list string :=
  filter (fun offer_id => negb (Py.contains offer_id (codes watch_remnants)))
         offer_ids.

(** What [l.remove(x)] leaves of [l]; [l] itself when [x] is not in it. *)
Definition without_first (x : string) (l : list string) : list string :=
  match Py.remove x l with
  | Ok l' => l'
  | Raise _ => l
  end.

(** The vendor records [create_stocks] matches: those whose code is in
    the list when their turn comes, each taking one occurrence of its code
    out of the list.  These are the records whose quantity is parsed. *)
Fixpoint matched_rows (V : list watch) (O : list string) : list watch :=
  match V with
  | [] => []
  | watch :: rest =>
      if Py.contains (Py.str (Kod watch)) O
      then watch :: matched_rows rest (without_first (Py.str (Kod watch)) O)
      else matched_rows rest O
  end.

(** The reconciliation both [create_stocks] perform, over any shape
    [mk offer_id stock] of stock record. *)
Section Reconcile.
Context `{PI : Py.PyInt}.
Variable R : Type.
Variable mk : string -> Z -> R.

Definition reconcile_step (watch : watch) (stocks : list R) : M (list R) :=
  offer_ids <- get ;;
  if Py.contains (Py.str (Kod watch)) offer_ids then
    let count := Py.str (Kolichestvo watch) in
    stock <- (if (count =? ">10")%string then ret 100
              else if (count =? "1")%string then ret 0
              else lift (Py.int (Kolichestvo watch))) ;;
    let stocks' := stocks ++ [ mk (Py.str (Kod watch)) stock ] in
    list_remove (Py.str (Kod watch)) ;;;
    ret stocks'
  else ret stocks.

Definition reconcile (watch_remnants : list watch) : M (list R) :=
  stocks <- for_in watch_remnants reconcile_step [] ;;
  offer_ids <- get ;;
  for_in offer_ids (fun offer_id stocks => ret (stocks ++ [ mk offer_id 0 ]))
         stocks.
End Reconcile.

Definition seller_stock (offer_id : string) (stock : Z) : Seller.stock_record :=
  {| Seller.stock_offer_id := offer_id; Seller.stock := stock |}.

Definition market_stock (date warehouse_id : string) (offer_id : string)
           (stock : Z) : Market.stock_record :=
  {| Market.sku := offer_id;
     Market.warehouseId := warehouse_id;
     Market.items := [ {| Market.count := stock;
                          Market.type := "FIT";
                          Market.updatedAt := date |} ] |}.

(** The stock count a Yandex Market record carries. *)
Definition market_count (r : Market.stock_record) : Z :=
  match Market.items r with
  | item :: _ => Market.count item
  | [] => 0
  end.

(** A stock record made from a vendor record: same code, and the
    vendor's quantity normalised. *)
Definition from_vendor `{PI : Py.PyInt} {R} (id_of : R -> string) (count_of : R -> Z)
           (V : list watch) (r : R) : Prop :=
  exists watch,
    In watch V
    /\ Py.str (Kod watch) = id_of r
    /\ normalize (Kolichestvo watch) = Ok (count_of r).

(** What it is for the records [stocks], returned for the vendor records
    [V] and the identifiers [O] with [O'] left in the list, to cover [O]:
    as many records as identifiers, the same identifiers up to order,
    first records matched to a vendor record, then a zero-stock record for
    each identifier left in the list; for a duplicate-free [O], every
    identifier in one record only, and the identifiers left are those
    without vendor record. *)
Definition covers `{PI : Py.PyInt} {R} (id_of : R -> string) (count_of : R -> Z)
           (V : list watch) (O : list string)
           (stocks : list R) (O' : list string) : Prop :=
  List.length stocks = List.length O
  /\ Permutation (map id_of stocks) O
  /\ (exists matched fallbacks,
         stocks = matched ++ fallbacks
         /\ map id_of fallbacks = O'
         /\ Forall (fun r => count_of r = 0) fallbacks
         /\ Forall (from_vendor id_of count_of V) matched)
  /\ (NoDup O ->
      (forall x, In x O -> count_occ string_dec (map id_of stocks) x = 1%nat)
      /\ O' = unmatched V O).

(** [ceil (a / b)] for a positive [b]. *)
Definition ceil_div (a b : Z) : Z := (a + b - 1) / b.

(** The vendor records and offer identifiers of the end-to-end scenario. *)
Definition scenario_records : list watch :=
  [ {| Kod := VStr "A1"; Kolichestvo := VStr ">10"; Tsena := VStr "100.00 x" |};
    {| Kod := VStr "A2"; Kolichestvo := VStr "1"; Tsena := VStr "50.00 x" |} ].

Definition scenario_offer_ids : list string := ["A1"; "A2"; "A3"].

(** A vendor record for ["A"] with five pieces in stock, and one for ["B"]
    whose quantity cell is blank. *)
Definition watch_A : watch :=
  {| Kod := VStr "A"; Kolichestvo := VStr "5"; Tsena := VStr "10.00" |}.

Definition watch_blank_quantity : watch :=
  {| Kod := VStr "B"; Kolichestvo := VStr ""; Tsena := VStr "10.00" |}.

Definition watch_seven : watch :=
  {| Kod := VStr "A"; Kolichestvo := VStr "7"; Tsena := VStr "10.00" |}.

(** Catalogues served page by page.  The first two are duplicate-free;
    in the last two the identifier ["A"] is listed twice: twice on one
    Ozon page, and on two successive Yandex Market pages. *)
Definition ozon_catalog : list Seller.product_page :=
  [ {| Seller.items := [ {| Seller.offer_id := "A" |};
                         {| Seller.offer_id := "B" |} ];
       Seller.total := 3;
       Seller.last_id := "B" |};
    {| Seller.items := [ {| Seller.offer_id := "C" |} ];
       Seller.total := 3;
       Seller.last_id := "C" |} ].

Definition market_entry (shop_sku : string) : Market.entry :=
  {| Market.entry_offer := {| Market.shopSku := shop_sku |} |}.

Definition market_catalog : list Market.product_page :=
  [ {| Market.offerMappingEntries := [ market_entry "A"; market_entry "B" ];
       Market.paging := {| Market.nextPageToken := Some "page2" |} |};
    {| Market.offerMappingEntries := [ market_entry "C" ];
       Market.paging := {| Market.nextPageToken := None |} |} ].

Definition ozon_catalog_repeating : list Seller.product_page :=
  [ {| Seller.items := [ {| Seller.offer_id := "A" |};
                         {| Seller.offer_id := "A" |} ];
       Seller.total := 2;
       Seller.last_id := "A" |} ].

Definition market_catalog_repeating : list Market.product_page :=
  [ {| Market.offerMappingEntries := [ market_entry "A" ];
       Market.paging := {| Market.nextPageToken := Some "page2" |} |};
    {| Market.offerMappingEntries := [ market_entry "A" ];
       Market.paging := {| Market.nextPageToken := Some "" |} |} ].

(** ** The upload functions and [main] of seller.py

    A request that writes to the marketplace either returns (its JSON
    answer is thrown away by every caller) or raises; the requests made
    are kept, in order, beside the result. *)

Inductive requests_exn : Type :=
| HTTPError
| ConnectionError
| ReadTimeout.

(** How a function that sends requests ends. *)
Inductive outcome (A : Type) : Type :=
| Returned (a : A)
| Raised (e : exn)
| RequestRaised (e : requests_exn).
Arguments Returned {A} a.
Arguments Raised {A} e.
Arguments RequestRaised {A} e.

Section SendAll.
Variables W P : Type.
Variable update : P -> W -> option requests_exn * W.

(** [for some in batches: update(some, ...)]: the batches handed to
    [update], the exception that ended the loop if one did, the world. *)
Fixpoint send_all (batches : list P) (w : W)
  : list P * option requests_exn * W :=
  match batches with
  | [] => ([], None, w)
  | some :: rest =>
      match update some w with
      | (Some e, w') => ([some], Some e, w')
      | (None, w') =>
          let '(sent, failure, w'') := send_all rest w' in
          (some :: sent, failure, w'')
      end
  end.
End SendAll.
Arguments send_all {W P} update batches w.

Module SellerUpload.

Section Upload.
Context `{PI : Py.PyInt}.
Variable W : Type.
Variable get_product_list :
  string -> string -> string -> W -> Seller.product_page * W.
Variable update_price :
  list Seller.price_record -> string -> string -> W -> option requests_exn * W.
Variable update_stocks :
  list Seller.stock_record -> string -> string -> W -> option requests_exn * W.
(** [download_stock()]: the parsed feed, or [None] when it raised. *)
Variable download_stock : W -> option (list watch) * W.

(** The body of the coroutine [upload_prices]; [None] when the catalogue
    loop is still running after [fuel] requests. *)
Definition upload_prices (watch_remnants : list watch)
           (client_id seller_token : string) (fuel : nat) (w : W)
  : option (list (list Seller.price_record)
            * outcome (list Seller.price_record) * W) :=
  match Seller.get_offer_ids W get_product_list client_id seller_token fuel w with
  | None => None
  | Some (offer_ids, w1) =>
      match Seller.create_prices watch_remnants offer_ids with
      | (Raise e, _) => Some ([], Raised e, w1)
      | (Ok prices, _) =>
          match Seller.divide prices 1000 with
          | Raise e => Some ([], Raised e, w1)
          | Ok batches =>
              let '(sent, failure, w2) :=
                send_all (fun some_price =>
                            update_price some_price client_id seller_token)
                         batches w1 in
              match failure with
              | Some e => Some (sent, RequestRaised e, w2)
              | None => Some (sent, Returned prices, w2)
              end
          end
      end
  end.

(** The body of the coroutine [upload_stocks]. *)
Definition upload_stocks (watch_remnants : list watch)
           (client_id seller_token : string) (fuel : nat) (w : W)
  : option (list (list Seller.stock_record)
            * outcome (list Seller.stock_record * list Seller.stock_record)
            * W) :=
  match Seller.get_offer_ids W get_product_list client_id seller_token fuel w with
  | None => None
  | Some (offer_ids, w1) =>
      match Seller.create_stocks watch_remnants offer_ids with
      | (Raise e, _) => Some ([], Raised e, w1)
      | (Ok stocks, _) =>
          match Seller.divide stocks 100 with
          | Raise e => Some ([], Raised e, w1)
          | Ok batches =>
              let '(sent, failure, w2) :=
                send_all (fun some_stock =>
                            update_stocks some_stock client_id seller_token)
                         batches w1 in
              match failure with
              | Some e => Some (sent, RequestRaised e, w2)
              | None =>
                  let not_empty :=
                    filter (fun stock => negb (Seller.stock stock =? 0))
                           stocks in
                  Some (sent, Returned (not_empty, stocks), w2)
              end
          end
      end
  end.

(** [main], the two credentials read: the stock batches and the price
    batches it hands to [update_stocks] and [update_price].  Whatever is
    raised inside the [try] is caught and printed, and [main] returns. *)
Definition main (client_id seller_token : string) (fuel : nat) (w : W)
  : option (list (list Seller.stock_record)
            * list (list Seller.price_record) * W) :=
  match Seller.get_offer_ids W get_product_list client_id seller_token fuel w with
  | None => None
  | Some (offer_ids, w1) =>
      match download_stock w1 with
      | (None, w2) => Some ([], [], w2)
      | (Some watch_remnants, w2) =>
          match Seller.create_stocks watch_remnants offer_ids with
          | (Raise _, _) => Some ([], [], w2)
          | (Ok stocks, offer_ids') =>
              match Seller.divide stocks 100 with
              | Raise _ => Some ([], [], w2)
              | Ok stock_batches =>
                  let '(sent_stocks, failure, w3) :=
                    send_all (fun some_stock =>
                                update_stocks some_stock client_id seller_token)
                             stock_batches w2 in
                  match failure with
                  | Some _ => Some (sent_stocks, [], w3)
                  | None =>
                      match Seller.create_prices watch_remnants offer_ids' with
                      | (Raise _, _) => Some (sent_stocks, [], w3)
                      | (Ok prices, _) =>
                          match Seller.divide prices 900 with
                          | Raise _ => Some (sent_stocks, [], w3)
                          | Ok price_batches =>
                              let '(sent_prices, _, w4) :=
                                send_all
                                  (fun some_price =>
                                     update_price some_price client_id
                                                  seller_token)
                                  price_batches w3 in
                              Some (sent_stocks, sent_prices, w4)
                          end
                      end
                  end
              end
          end
      end
  end.
End Upload.

End SellerUpload.

(** ** The upload functions of market.py *)

Module MarketUpload.

Section Upload.
Context `{PI : Py.PyInt}.
Variable W : Type.
Variable get_product_list :
  option string -> string -> string -> W -> Market.product_page * W.
Variable update_price :
  list Market.price_record -> string -> string -> W -> option requests_exn * W.
Variable update_stocks :
  list Market.stock_record -> string -> string -> W -> option requests_exn * W.

(** [stock.get("items")[0].get("count")] *)
Definition first_count (stock : Market.stock_record) : result Z :=
  match Py.index0 (Market.items stock) with
  | Ok item => Ok (Market.count item)
  | Raise e => Raise e
  end.

(** [list(filter(lambda stock: stock.get("items")[0].get("count") != 0,
    stocks))] *)
Fixpoint filter_not_empty (stocks : list Market.stock_record)
  : result (list Market.stock_record) :=
  match stocks with
  | [] => Ok []
  | stock :: rest =>
      match first_count stock with
      | Raise e => Raise e
      | Ok count =>
          match filter_not_empty rest with
          | Raise e => Raise e
          | Ok kept => Ok (if negb (count =? 0) then stock :: kept else kept)
          end
      end
  end.

Definition upload_prices (watch_remnants : list watch)
           (campaign_id market_token : string) (fuel : nat) (w : W)
  : option (list (list Market.price_record)
            * outcome (list Market.price_record) * W) :=
  match Market.get_offer_ids W get_product_list campaign_id market_token fuel w with
  | None => None
  | Some (offer_ids, w1) =>
      match Market.create_prices watch_remnants offer_ids with
      | (Raise e, _) => Some ([], Raised e, w1)
      | (Ok prices, _) =>
          match Seller.divide prices 500 with
          | Raise e => Some ([], Raised e, w1)
          | Ok batches =>
              let '(sent, failure, w2) :=
                send_all (fun some_prices =>
                            update_price some_prices campaign_id market_token)
                         batches w1 in
              match failure with
              | Some e => Some (sent, RequestRaised e, w2)
              | None => Some (sent, Returned prices, w2)
              end
          end
      end
  end.

(** [date] stands for the time stamp [create_stocks] takes. *)
Definition upload_stocks (date : string) (watch_remnants : list watch)
           (campaign_id market_token warehouse_id : string)
           (fuel : nat) (w : W)
  : option (list (list Market.stock_record)
            * outcome (list Market.stock_record * list Market.stock_record)
            * W) :=
  match Market.get_offer_ids W get_product_list campaign_id market_token fuel w with
  | None => None
  | Some (offer_ids, w1) =>
      match Market.create_stocks date watch_remnants warehouse_id offer_ids with
      | (Raise e, _) => Some ([], Raised e, w1)
      | (Ok stocks, _) =>
          match Seller.divide stocks 2000 with
          | Raise e => Some ([], Raised e, w1)
          | Ok batches =>
              let '(sent, failure, w2) :=
                send_all (fun some_stock =>
                            update_stocks some_stock campaign_id market_token)
                         batches w1 in
              match failure with
              | Some e => Some (sent, RequestRaised e, w2)
              | None =>
                  match filter_not_empty stocks with
                  | Raise e => Some (sent, Raised e, w2)
                  | Ok not_empty =>
                      Some (sent, Returned (not_empty, stocks), w2)
                  end
              end
          end
      end
  end.
End Upload.

End MarketUpload.

(** ** Vocabulary for the further properties *)

(** The view both marketplaces share of a stock record: identifier and
    count. *)
Definition seller_view (r : Seller.stock_record) : string * Z :=
  (Seller.stock_offer_id r, Seller.stock r).

Definition market_view (r : Market.stock_record) : string * Z :=
  (Market.sku r, market_count r).

(** The price record [create_prices] of seller.py builds around a price. *)
Definition seller_price (offer_id price : string) : Seller.price_record :=
  {| Seller.auto_action_enabled := "UNKNOWN";
     Seller.currency_code := "RUB";
     Seller.price_offer_id := offer_id;
     Seller.old_price := "0";
     Seller.price := price |}.

(** The vendor records whose code is in [offer_ids]. *)
Definition listed (offer_ids : list string) (watch_remnants : list watch)
  : list watch :=
  filter (fun watch => Py.contains (Py.str (Kod watch)) offer_ids)
         watch_remnants.

(** Is the price of the record a text? *)
Definition text_price (watch : watch) : bool :=
  match Tsena watch with
  | VStr _ => true
  | _ => false
  end.

Fixpoint all_digits (s : string) : bool :=
  match s with
  | EmptyString => true
  | String c rest => Py.is_digit c && all_digits rest
  end.

(** A second vendor record for ["A"], its quantity not a number. *)
Definition watch_A_again : watch :=
  {| Kod := VStr "A"; Kolichestvo := VStr "нет"; Tsena := VStr "12.00" |}.

(** The reconciliation over bare pairs of identifier and count. *)
Definition reconcile_pairs `{PI : Py.PyInt} (V : list watch)
  : M (list (string * Z)) :=
  reconcile (string * Z) pair V.

(** The one item a Yandex Market stock record carries. *)
Definition market_item (date : string) (stock : Z) : Market.stock_item :=
  {| Market.count := stock; Market.type := "FIT"; Market.updatedAt := date |}.

(** The number a text of decimal digits writes, continuing [acc]. *)
Fixpoint digits_value (s : string) (acc : Z) : Z :=
  match s with
  | EmptyString => acc
  | String c rest => digits_value rest (10 * acc + Py.digit_val c)
  end.

(** The price text [create_prices] computes for a record, [""] when
    [price_conversion] raises. *)
Definition converted (watch : watch) : string :=
  match Seller.price_conversion (Tsena watch) with
  | Ok price => price
  | Raise _ => ""
  end.

(** Does the price of the record have a digit before its first period? *)
Definition priced (watch : watch) : bool :=
  text_price watch && negb (converted watch =? "")%string.

(** Does it have one, and no more than [int()] reads by default? *)
Definition priced_within_limit (watch : watch) : bool :=
  priced watch
  && (String.length (converted watch) <=? Py.max_str_digits)%nat.

(** The bodies of the loops of the two [create_prices]. *)
Definition seller_price_step (watch : watch) (prices : list Seller.price_record)
  : M (list Seller.price_record) :=
  offer_ids <- get ;;
  if Py.contains (Py.str (Kod watch)) offer_ids then
    converted <- lift (Seller.price_conversion (Tsena watch)) ;;
    ret (prices ++ [seller_price (Py.str (Kod watch)) converted])
  else ret prices.

Definition market_price_step `{PI : Py.PyInt} (watch : watch)
           (prices : list Market.price_record)
  : M (list Market.price_record) :=
  offer_ids <- get ;;
  if Py.contains (Py.str (Kod watch)) offer_ids then
    converted <- lift (Seller.price_conversion (Tsena watch)) ;;
    value <- lift (Py.int_text converted) ;;
    ret (prices ++ [ {| Market.id := Py.str (Kod watch);
                        Market.price := {| Market.value := value;
                                           Market.currencyId := "RUR" |} |} ])
  else ret prices.

(** The price records the two [create_prices] build for a vendor
    record. *)
Definition seller_price_of (watch : watch) : Seller.price_record :=
  seller_price (Py.str (Kod watch)) (converted watch).

Definition market_price_of (watch : watch) : Market.price_record :=
  {| Market.id := Py.str (Kod watch);
     Market.price := {| Market.value := digits_value (converted watch) 0;
                        Market.currencyId := "RUR" |} |}.

(** Vendor records priced without a digit before the period, and as a
    number. *)
Definition watch_no_digits : watch :=
  {| Kod := VStr "A"; Kolichestvo := VStr "5"; Tsena := VStr "по запросу" |}.

Definition watch_number_price : watch :=
  {| Kod := VStr "A"; Kolichestvo := VStr "5"; Tsena := VInt 5990 |}.

(** An Ozon that answers every request with the same page of two
    products and a total of one. *)
Definition ozon_overshooting (last_id client_id seller_token : string)
           (w : unit) : Seller.product_page * unit :=
  ({| Seller.items := [ {| Seller.offer_id := "A" |};
                        {| Seller.offer_id := "B" |} ];
      Seller.total := 1;
      Seller.last_id := "B" |}, w).

(** The number of products on the pages [0 .. k] of an Ozon catalogue. *)
Definition fetched_count (W : Type)
           (get_product_list :
              string -> string -> string -> W -> Seller.product_page * W)
           (client_id seller_token : string) (k : nat) (w : W) : Z :=
  Z.of_nat (List.length
              (flat_map Seller.items
                 (Seller.pages_upto W get_product_list client_id seller_token
                    k w))).

(** What a run of batches covers when every request returned: the whole
    payload, in order, in chunks of at most [n]. *)
Definition sent_all {A} (n : Z) (payload : list A) (sent : list (list A))
  : Prop :=
  List.concat sent = payload
  /\ Forall (fun c => 1 <= Z.of_nat (List.length c) <= n) sent
  /\ Z.of_nat (List.length sent) = ceil_div (Z.of_nat (List.length payload)) n.

(** What it covers when a request raised [e]: the first batches of the
    payload; the requests for the batches [before] all returned, taking
    the world from [w1] to [w_mid]; the request for the next batch,
    [refused], raised [e] and left the world [w']; nothing was sent after
    it. *)
Definition sent_until_refused {W A}
           (update : list A -> W -> option requests_exn * W)
           (n : Z) (payload : list A) (w1 : W)
           (sent : list (list A)) (e : requests_exn) (w' : W) : Prop :=
  exists before refused rest w_mid,
    sent = before ++ [refused]
    /\ Seller.divide payload n = Ok (before ++ refused :: rest)
    /\ send_all update before w1 = (before, None, w_mid)
    /\ update refused w_mid = (Some e, w').

(** A marketplace that accepts every write, and one that refuses every
    write. *)
Definition accept_all {W P} (batch : P) (a b : string) (w : W)
  : option requests_exn * W := (None, w).

Definition refuse_all {W P} (batch : P) (a b : string) (w : W)
  : option requests_exn * W := (Some HTTPError, w).

(** A feed that holds the one record [watch_A]. *)
Definition feed_A {W} (w : W) : option (list watch) * W := (Some [watch_A], w).

(** A vendor record for ["B"] with the quantity ["1"]. *)
Definition watch_B_one : watch :=
  {| Kod := VStr "B"; Kolichestvo := VStr "1"; Tsena := VStr "20.00" |}.

(** * Properties *)

(** ** Python primitives *)

Example str_int_0 : Py.str (VInt 0) = "0". Proof. reflexivity. Qed.
Example str_int_1 : Py.str (VInt 1) = "1". Proof. reflexivity. Qed.
Example str_int_m12 : Py.str (VInt (-12)) = "-12". Proof. reflexivity. Qed.
Example ascii_int_7 : Py.ascii_int "7" = Ok 7. Proof. reflexivity. Qed.
Example ascii_int_blank_signed : Py.ascii_int " -1_000 " = Ok (-1000). Proof. reflexivity. Qed.
Example ascii_int_blank_inside : Py.ascii_int "1 0" = Raise ValueError. Proof. reflexivity. Qed.
Example ascii_int_empty : Py.ascii_int "" = Raise ValueError. Proof. reflexivity. Qed.
Example ascii_int_gt10 : Py.ascii_int ">10" = Raise ValueError. Proof. reflexivity. Qed.
Example ascii_int_unit_separator :
  Py.ascii_int (String (ascii_of_nat 31) "5") = Raise ValueError.
Proof. reflexivity. Qed.
Example split_ex : Py.split "." "a.b..c" = ["a"; "b"; ""; "c"]. Proof. reflexivity. Qed.
Example range_ex : Py.range 0 5 2 = Ok [0; 2; 4]. Proof. reflexivity. Qed.
Example slice_ex : Py.slice [1; 2; 3; 4; 5] 4 6 = [5]. Proof. reflexivity. Qed.

(** The normalisation compares the printed cell: an integer cell 1 prints
    as ["1"] and counts for 0, a float cell 1.0 prints as ["1.0"] and
    counts for 1. *)
Example normalize_int_1 `{PI : Py.PyInt} : normalize (VInt 1) = Ok 0.
Proof. reflexivity. Qed.
Example normalize_float_1 `{PI : Py.PyInt} : normalize (VFloat "1.0" (Ok 1)) = Ok 1.
Proof. reflexivity. Qed.
Example normalize_int_12 `{PI : Py.PyInt} : normalize (VInt 12) = Ok 12.
Proof. reflexivity. Qed.
Example normalize_none `{PI : Py.PyInt} : normalize VNone = Raise TypeError.
Proof. reflexivity. Qed.

(** ** price_conversion *)

Lemma split_nonempty (sep : ascii) (s : string) : Py.split sep s <> [].
Proof.
  destruct s as [|c rest]; simpl; [discriminate|].
  destruct (Ascii.eqb c sep); [discriminate|].
  destruct (Py.split sep rest); discriminate.
Qed.

(** The first piece of a split is the text before the first separator. *)
Lemma split_first_piece (int_part rest : string) :
  contains_period int_part = false ->
  exists pieces,
    Py.split "." (int_part ++ String "." rest)%string = int_part :: pieces.
Proof.
  induction int_part as [|c s IH]; simpl; intros H.
  - eexists; reflexivity.
  - apply orb_false_elim in H as [Hc Hs]. rewrite Hc.
    destruct (IH Hs) as [pieces ->]. eexists; reflexivity.
Qed.

Lemma split_no_period (s : string) :
  contains_period s = false -> Py.split "." s = [s].
Proof.
  induction s as [|c s IH]; simpl; intros H; [reflexivity|].
  apply orb_false_elim in H as [Hc Hs]. now rewrite Hc, (IH Hs).
Qed.

Lemma re_sub_non_digits_filter (s : string) :
  list_ascii_of_string (Py.re_sub_non_digits s)
  = filter Py.is_digit (list_ascii_of_string s).
Proof.
  induction s as [|c s IH]; simpl; [reflexivity|].
  destruct (Py.is_digit c); simpl; now rewrite IH.
Qed.

(** C3.  For a price text made of an integer part without a period, a
    period and anything after it, [price_conversion] returns the integer
    part with every character that is not a decimal digit removed; so
    ["5'990.00 руб."] becomes ["5990"]. *)
Theorem price_conversion_digit_prefix (int_part rest : string) :
  contains_period int_part = false ->
  Seller.price_conversion (VStr (int_part ++ "." ++ rest)%string)
    = Ok (Py.re_sub_non_digits int_part)
  /\ list_ascii_of_string (Py.re_sub_non_digits int_part)
     = filter Py.is_digit (list_ascii_of_string int_part)
  /\ Seller.price_conversion (VStr "5'990.00 руб.") = Ok "5990".
Proof.
  intros H. split; [|split].
  - unfold Seller.price_conversion.
    destruct (split_first_piece int_part rest H) as [pieces Hp].
    simpl in Hp |- *. now rewrite Hp.
  - apply re_sub_non_digits_filter.
  - reflexivity.
Qed.

Lemma price_conversion_digit_prefix_witness :
  contains_period "5'990" = false
  /\ Seller.price_conversion (VStr "5'990.00 руб.") = Ok "5990".
Proof.
  split; [reflexivity|].
  exact (proj1 (price_conversion_digit_prefix "5'990" "00 руб." eq_refl)).
Defined.

(** A text is never rejected by [price_conversion]. *)
Lemma price_conversion_text_total (s : string) :
  exists out, Seller.price_conversion (VStr s) = Ok out.
Proof.
  unfold Seller.price_conversion.
  pose proof (split_nonempty "." s) as H.
  destruct (Py.split "." s); [congruence|]. eexists; reflexivity.
Qed.

(** C4, as the specification has it, fails: a text without a period is
    converted, not rejected. *)
Lemma price_conversion_no_period_counterexample :
  contains_period "5990" = false
  /\ Seller.price_conversion (VStr "5990") = Ok "5990".
Proof. split; reflexivity. Qed.

(** C4, amended.  A text is never rejected: without a period it is
    converted whole, to its decimal digits.  A value that is not a text
    ([None], an integer, a float) raises [AttributeError]. *)
Theorem price_conversion_failures (s : string) :
  contains_period s = false ->
  Seller.price_conversion (VStr s) = Ok (Py.re_sub_non_digits s)
  /\ (forall text, exists out, Seller.price_conversion (VStr text) = Ok out)
  /\ (forall price,
         (forall text, price <> VStr text) ->
         Seller.price_conversion price = Raise AttributeError).
Proof.
  intros H. repeat apply conj.
  - unfold Seller.price_conversion. now rewrite (split_no_period s H).
  - apply price_conversion_text_total.
  - intros [| z | repr trunc | text] Hnot; try reflexivity.
    now contradiction (Hnot text).
Qed.

Lemma price_conversion_failures_witness :
  contains_period "5990" = false
  /\ Seller.price_conversion (VStr "5990") = Ok "5990"
  /\ Seller.price_conversion (VFloat "5990.0" (Ok 5990)) = Raise AttributeError.
Proof.
  split; [reflexivity|].
  pose proof (price_conversion_failures "5990" eq_refl) as [H1 [_ H2]].
  split; [exact H1|]. apply H2. intros text; discriminate.
Defined.

(** ** The end-to-end scenario *)

(** C8.  On the two scenario records and a fresh list [A1, A2, A3] for
    each call, [create_stocks] gives the stocks 100, 0, 0 for A1, A2, A3 in
    that order, and [create_prices] gives price records for A1 (["100"])
    and A2 (["50"]) only. *)
Theorem scenario_stocks_and_prices `{PI : Py.PyInt} :
  fst (Seller.create_stocks scenario_records scenario_offer_ids)
    = Ok [ {| Seller.stock_offer_id := "A1"; Seller.stock := 100 |};
           {| Seller.stock_offer_id := "A2"; Seller.stock := 0 |};
           {| Seller.stock_offer_id := "A3"; Seller.stock := 0 |} ]
  /\ fst (Seller.create_prices scenario_records scenario_offer_ids)
    = Ok [ {| Seller.auto_action_enabled := "UNKNOWN";
              Seller.currency_code := "RUB";
              Seller.price_offer_id := "A1";
              Seller.old_price := "0";
              Seller.price := "100" |};
           {| Seller.auto_action_enabled := "UNKNOWN";
              Seller.currency_code := "RUB";
              Seller.price_offer_id := "A2";
              Seller.old_price := "0";
              Seller.price := "50" |} ].
Proof. split; reflexivity. Qed.

(** ** divide *)

Lemma firstn_add_skipn {A} (a b : nat) (l : list A) :
  firstn (a + b)%nat l = firstn a l ++ firstn b (skipn a l).
Proof.
  revert l; induction a as [|a IH]; intros l; simpl; [reflexivity|].
  destruct l as [|x l]; simpl.
  - now rewrite firstn_nil.
  - now rewrite IH.
Qed.

(** The chunks numbered [0 .. c-1] of size [p] make up the first [c * p]
    elements. *)
Lemma concat_chunks {A} (p : nat) (l : list A) (c : nat) :
  List.concat (map (fun k => firstn p (skipn (k * p)%nat l)) (seq 0 c))
  = firstn (c * p)%nat l.
Proof.
  induction c as [|c IH]; [reflexivity|].
  rewrite seq_S, map_app, concat_app, IH. simpl.
  rewrite app_nil_r, (Nat.add_comm p), firstn_add_skipn. reflexivity.
Qed.

(** A slice that starts inside the list and is [n] long. *)
Lemma slice_chunk {A} (l : list A) (i n : Z) :
  0 < n -> 0 <= i <= Z.of_nat (List.length l) ->
  Py.slice l i (i + n) = firstn (Z.to_nat n) (skipn (Z.to_nat i) l).
Proof.
  intros Hn Hi. unfold Py.slice, Py.clamp.
  destruct (Z.ltb_spec i 0); [lia|].
  destruct (Z.ltb_spec (i + n) 0); [lia|].
  rewrite (Z.min_l i) by lia.
  set (len := Z.of_nat (List.length l)) in *.
  destruct (Z.le_ge_cases (i + n) len) as [Hle|Hge].
  - rewrite Z.min_l by lia. f_equal. lia.
  - rewrite Z.min_r by lia.
    rewrite !firstn_all2; [reflexivity| |]; rewrite length_skipn; lia.
Qed.

(** How many chunks: [ceil (len / n)], written with the floor division
    of [Z]. *)
Lemma range_len_ceil (len n : Z) :
  0 < n -> 0 <= len -> Py.range_len 0 len n = (len + n - 1) / n.
Proof.
  intros Hn Hlen. unfold Py.range_len.
  destruct (Z.ltb_spec 0 n); [|lia]. simpl.
  destruct (Z.ltb_spec 0 len).
  - replace (len + n - 1) with ((len - 0 - 1) + 1 * n) by lia.
    now rewrite Z.div_add by lia.
  - destruct (Z.ltb_spec n 0); [lia|]. simpl.
    replace len with 0 by lia. symmetry. apply Z.div_small. lia.
Qed.

(** [divide] with a positive chunk size, chunk by chunk. *)
Lemma divide_chunks {A} (lst : list A) (n : Z) :
  0 < n ->
  Seller.divide lst n
  = Ok (map (fun k => firstn (Z.to_nat n) (skipn (k * Z.to_nat n)%nat lst))
            (seq 0 (Z.to_nat (ceil_div (Z.of_nat (List.length lst)) n)))).
Proof.
  intros Hn. unfold Seller.divide, Py.range, ceil_div.
  destruct (Z.eqb_spec n 0); [lia|].
  rewrite range_len_ceil by lia.
  set (len := Z.of_nat (List.length lst)).
  set (c := Z.to_nat ((len + n - 1) / n)).
  f_equal. rewrite map_map. apply map_ext_in.
  intros k Hk. apply in_seq in Hk.
  assert (Hc : Z.of_nat k < (len + n - 1) / n) by (unfold c in Hk; lia).
  assert (Hkn : Z.of_nat k * n < len).
  { assert (Z.of_nat k + 1 <= (len + n - 1) / n) by lia.
    assert (n * ((len + n - 1) / n) <= len + n - 1)
      by (apply Z.mul_div_le; lia).
    nia. }
  rewrite slice_chunk by (fold len; lia).
  f_equal. f_equal. lia.
Qed.

Lemma nth_map_seq {B} (f : nat -> B) (c k : nat) (d : B) :
  (k < c)%nat -> nth k (map f (seq 0 c)) d = f k.
Proof.
  intros Hk. rewrite nth_indep with (d' := f O)
    by (now rewrite length_map, length_seq).
  now rewrite map_nth, seq_nth.
Qed.

(** [ceil_div] is the ceiling of the quotient. *)
Lemma ceil_div_spec (a b : Z) :
  0 < b -> 0 <= a -> (ceil_div a b - 1) * b < a <= ceil_div a b * b.
Proof.
  intros Hb Ha. unfold ceil_div.
  pose proof (Z.div_mod (a + b - 1) b ltac:(lia)) as Hdm.
  pose proof (Z.mod_pos_bound (a + b - 1) b Hb) as Hm.
  nia.
Qed.

(** C5.  For a positive [n], [divide lst n] yields consecutive chunks of
    [lst]: their concatenation is [lst], each holds between 1 and [n]
    elements, chunk number [k] is the [n] elements from position [k * n],
    there are [ceil (len lst / n)] of them, none for the empty list and
    the single chunk [lst] when [lst] is not empty and [n >= len lst]. *)
Theorem divide_partitions {A} (lst : list A) (n : Z) :
  0 < n ->
  exists chunks,
    Seller.divide lst n = Ok chunks
    /\ List.concat chunks = lst
    /\ Forall (fun c => 1 <= Z.of_nat (List.length c) <= n) chunks
    /\ (forall k, (k < List.length chunks)%nat ->
          nth k chunks [] = firstn (Z.to_nat n) (skipn (k * Z.to_nat n)%nat lst))
    /\ Z.of_nat (List.length chunks) = ceil_div (Z.of_nat (List.length lst)) n
    /\ (lst = [] -> chunks = [])
    /\ (lst <> [] -> Z.of_nat (List.length lst) <= n -> chunks = [lst]).
Proof.
  intros Hn. eexists. split; [apply divide_chunks; exact Hn|].
  set (len := Z.of_nat (List.length lst)).
  pose proof (ceil_div_spec len n Hn ltac:(lia)) as Hceil.
  set (c := Z.to_nat (ceil_div len n)).
  set (p := Z.to_nat n).
  assert (Hc : Z.of_nat c = ceil_div len n) by (unfold c; nia).
  assert (Hp : Z.of_nat p = n) by (unfold p; lia).
  repeat apply conj.
  - rewrite concat_chunks. apply firstn_all2. nia.
  - apply Forall_forall. intros ch Hin. apply in_map_iff in Hin as [k [<- Hk]].
    apply in_seq in Hk. rewrite length_firstn, length_skipn. nia.
  - intros k Hk. rewrite length_map, length_seq in Hk.
    now rewrite nth_map_seq.
  - now rewrite length_map, length_seq.
  - intros ->. simpl in len. replace c with O; [reflexivity|].
    unfold c, ceil_div, len. rewrite Z.div_small; lia.
  - intros Hne Hle.
    assert (0 < len) by (destruct lst; [congruence|unfold len; simpl; lia]).
    replace c with 1%nat by nia. simpl. f_equal. apply firstn_all2. lia.
Qed.

Lemma divide_partitions_witness :
  0 < 2
  /\ exists chunks,
      Seller.divide [1; 2; 3; 4; 5] 2 = Ok chunks
      /\ chunks = [[1; 2]; [3; 4]; [5]]
      /\ List.concat chunks = [1; 2; 3; 4; 5]
      /\ Z.of_nat (List.length chunks) = ceil_div 5 2.
Proof.
  split; [reflexivity|].
  destruct (divide_partitions [1; 2; 3; 4; 5] 2 eq_refl)
    as (chunks & Hrun & Hconcat & _ & _ & Hlen & _).
  exists chunks. repeat apply conj; try assumption.
  assert (H : Ok chunks = Ok [[1; 2]; [3; 4]; [5]])
    by (rewrite <- Hrun; reflexivity).
  now injection H.
Defined.

(** ** get_offer_ids: the pagination loops *)

Lemma fold_left_append_map {A B} (f : A -> B) (l : list A) (acc : list B) :
  fold_left (fun acc x => acc ++ [f x]) l acc = acc ++ map f l.
Proof.
  revert acc; induction l as [|x l IH]; intros acc; simpl.
  - now rewrite app_nil_r.
  - now rewrite IH, <- app_assoc.
Qed.

Lemma flat_map_seq_S {B} (f : nat -> list B) (k : nat) :
  flat_map f (seq 0 (S k)) = flat_map f (seq 0 k) ++ f k.
Proof. now rewrite seq_S, flat_map_app; simpl; rewrite app_nil_r. Qed.

Section SellerCatalog.
Variable W : Type.
Variable get_product_list :
  string -> string -> string -> W -> Seller.product_page * W.
Variables client_id seller_token : string.

Notation "'before_request'" :=
  (Seller.before_request W get_product_list client_id seller_token).
Notation "'response'" :=
  (Seller.response W get_product_list client_id seller_token).
Notation "'pages_upto'" :=
  (Seller.pages_upto W get_product_list client_id seller_token).
Notation "'signals_end'" :=
  (Seller.signals_end W get_product_list client_id seller_token).
Notation "'fetch_loop'" :=
  (Seller.fetch_loop W get_product_list client_id seller_token).
Notation "'get_offer_ids'" :=
  (Seller.get_offer_ids W get_product_list client_id seller_token).
Notation "'world_after'" :=
  (Seller.world_after W get_product_list client_id seller_token).
Notation "'resume'" :=
  (Seller.resume W get_product_list client_id seller_token).

Lemma seller_before_request_S (k : nat) (w : W) :
  before_request (S k) w
  = (Seller.last_id (response k w),
     snd (fst (before_request k w)) ++ Seller.items (response k w),
     world_after k w).
Proof.
  unfold Seller.world_after, Seller.response. simpl.
  destruct (before_request k w) as [[last_id product_list] w1].
  destruct (get_product_list last_id client_id seller_token w1); reflexivity.
Qed.

Lemma seller_accumulated (k : nat) (w : W) :
  snd (fst (before_request (S k) w))
  = flat_map Seller.items (pages_upto k w).
Proof.
  unfold Seller.pages_upto. rewrite flat_map_concat_map, map_map, <- flat_map_concat_map.
  induction k as [|k IH].
  - rewrite seller_before_request_S. simpl. now rewrite app_nil_r.
  - rewrite seller_before_request_S. cbn [fst snd].
    rewrite IH. now rewrite (flat_map_seq_S _ (S k)).
Qed.

Lemma seller_resume_step (fuel k : nat) (w : W) :
  resume (S fuel) (before_request k w)
  = if signals_end k w
    then Some (flat_map Seller.items (pages_upto k w), world_after k w)
    else resume fuel (before_request (S k) w).
Proof.
  unfold Seller.signals_end. rewrite <- seller_accumulated.
  rewrite seller_before_request_S. cbn [fst snd].
  unfold Seller.resume, Seller.response, Seller.world_after. simpl.
  destruct (before_request k w) as [[last_id product_list] w1]. simpl.
  destruct (get_product_list last_id client_id seller_token w1) as [some_prod w2].
  reflexivity.
Qed.

Lemma seller_resume_reaches (d k fuel : nat) (w : W) :
  signals_end (k + d) w = true ->
  (forall j, (k <= j < k + d)%nat -> signals_end j w = false) ->
  (d < fuel)%nat ->
  resume fuel (before_request k w)
  = Some (flat_map Seller.items (pages_upto (k + d) w), world_after (k + d) w).
Proof.
  revert k fuel. induction d as [|d IH]; intros k fuel Hend Hbefore Hfuel;
    (destruct fuel as [|fuel]; [lia|]); rewrite seller_resume_step.
  - rewrite Nat.add_0_r in *. now rewrite Hend.
  - rewrite Hbefore by lia.
    replace (k + S d)%nat with (S k + d)%nat in * by lia.
    apply IH; [assumption | intros; apply Hbefore; lia | lia].
Qed.

Lemma seller_resume_starves (fuel k : nat) (w : W) :
  (forall j, (k <= j < k + fuel)%nat -> signals_end j w = false) ->
  resume fuel (before_request k w) = None.
Proof.
  revert k. induction fuel as [|fuel IH]; intros k Hbefore.
  - unfold Seller.resume. destruct (before_request k w) as [[? ?] ?]. reflexivity.
  - rewrite seller_resume_step, Hbefore by lia.
    apply IH. intros; apply Hbefore; lia.
Qed.

Lemma seller_ids_of_products (pages : list Seller.product_page) :
  map Seller.offer_id (flat_map Seller.items pages)
  = flat_map Seller.page_ids pages.
Proof.
  induction pages as [|p pages IH]; simpl; [reflexivity|].
  now rewrite map_app, IH.
Qed.

(** With the first signal at page [k], [fuel > k] iterations return the
    identifiers of the pages [0 .. k] after [k + 1] requests. *)
Lemma seller_get_offer_ids_returns (k fuel : nat) (w : W) :
  Seller.first_signal W get_product_list client_id seller_token k w ->
  (k < fuel)%nat ->
  get_offer_ids fuel w
  = Some (flat_map Seller.page_ids (pages_upto k w), world_after k w).
Proof.
  intros [Hend Hbefore] Hfuel. unfold Seller.get_offer_ids.
  change (fetch_loop fuel "" [] w) with (resume fuel (before_request 0 w)).
  rewrite (seller_resume_reaches k 0 fuel w Hend)
    by (assumption || (intros; apply Hbefore; lia)).
  rewrite fold_left_append_map, seller_ids_of_products. reflexivity.
Qed.

(** The loop does not return before the first signal. *)
Lemma seller_get_offer_ids_starves (fuel : nat) (w : W) :
  (forall j, (j < fuel)%nat -> signals_end j w = false) ->
  get_offer_ids fuel w = None.
Proof.
  intros Hbefore. unfold Seller.get_offer_ids.
  change (fetch_loop fuel "" [] w) with (resume fuel (before_request 0 w)).
  now rewrite seller_resume_starves by (intros; apply Hbefore; lia).
Qed.
End SellerCatalog.

Section MarketCatalog.
Variable W : Type.
Variable get_product_list :
  option string -> string -> string -> W -> Market.product_page * W.
Variables campaign_id market_token : string.

Notation "'before_request'" :=
  (Market.before_request W get_product_list campaign_id market_token).
Notation "'response'" :=
  (Market.response W get_product_list campaign_id market_token).
Notation "'pages_upto'" :=
  (Market.pages_upto W get_product_list campaign_id market_token).
Notation "'signals_end'" :=
  (Market.signals_end W get_product_list campaign_id market_token).
Notation "'get_offer_ids'" :=
  (Market.get_offer_ids W get_product_list campaign_id market_token).
Notation "'world_after'" :=
  (Market.world_after W get_product_list campaign_id market_token).
Notation "'resume'" :=
  (Market.resume W get_product_list campaign_id market_token).

Lemma market_before_request_S (k : nat) (w : W) :
  before_request (S k) w
  = (Market.nextPageToken (Market.paging (response k w)),
     snd (fst (before_request k w))
       ++ Market.offerMappingEntries (response k w),
     world_after k w).
Proof.
  unfold Market.world_after, Market.response. simpl.
  destruct (before_request k w) as [[page product_list] w1].
  destruct (get_product_list page campaign_id market_token w1); reflexivity.
Qed.

Lemma market_accumulated (k : nat) (w : W) :
  snd (fst (before_request (S k) w))
  = flat_map Market.offerMappingEntries (pages_upto k w).
Proof.
  unfold Market.pages_upto.
  rewrite flat_map_concat_map, map_map, <- flat_map_concat_map.
  induction k as [|k IH].
  - rewrite market_before_request_S. simpl. now rewrite app_nil_r.
  - rewrite market_before_request_S. cbn [fst snd].
    rewrite IH. now rewrite (flat_map_seq_S _ (S k)).
Qed.

Lemma market_resume_step (fuel k : nat) (w : W) :
  resume (S fuel) (before_request k w)
  = if signals_end k w
    then Some (flat_map Market.offerMappingEntries (pages_upto k w),
               world_after k w)
    else resume fuel (before_request (S k) w).
Proof.
  unfold Market.signals_end. rewrite <- market_accumulated.
  rewrite market_before_request_S. cbn [fst snd].
  unfold Market.resume, Market.response, Market.world_after. simpl.
  destruct (before_request k w) as [[page product_list] w1]. simpl.
  destruct (get_product_list page campaign_id market_token w1) as [some_prod w2].
  reflexivity.
Qed.

Lemma market_resume_reaches (d k fuel : nat) (w : W) :
  signals_end (k + d) w = true ->
  (forall j, (k <= j < k + d)%nat -> signals_end j w = false) ->
  (d < fuel)%nat ->
  resume fuel (before_request k w)
  = Some (flat_map Market.offerMappingEntries (pages_upto (k + d) w),
          world_after (k + d) w).
Proof.
  revert k fuel. induction d as [|d IH]; intros k fuel Hend Hbefore Hfuel;
    (destruct fuel as [|fuel]; [lia|]); rewrite market_resume_step.
  - rewrite Nat.add_0_r in *. now rewrite Hend.
  - rewrite Hbefore by lia.
    replace (k + S d)%nat with (S k + d)%nat in * by lia.
    apply IH; [assumption | intros; apply Hbefore; lia | lia].
Qed.

Lemma market_resume_starves (fuel k : nat) (w : W) :
  (forall j, (k <= j < k + fuel)%nat -> signals_end j w = false) ->
  resume fuel (before_request k w) = None.
Proof.
  revert k. induction fuel as [|fuel IH]; intros k Hbefore.
  - unfold Market.resume. destruct (before_request k w) as [[? ?] ?].
    reflexivity.
  - rewrite market_resume_step, Hbefore by lia.
    apply IH. intros; apply Hbefore; lia.
Qed.

Lemma market_ids_of_entries (pages : list Market.product_page) :
  map (fun e => Market.shopSku (Market.entry_offer e))
      (flat_map Market.offerMappingEntries pages)
  = flat_map Market.page_ids pages.
Proof.
  induction pages as [|p pages IH]; simpl; [reflexivity|].
  now rewrite map_app, IH.
Qed.

Lemma market_get_offer_ids_returns (k fuel : nat) (w : W) :
  Market.first_signal W get_product_list campaign_id market_token k w ->
  (k < fuel)%nat ->
  get_offer_ids fuel w
  = Some (flat_map Market.page_ids (pages_upto k w), world_after k w).
Proof.
  intros [Hend Hbefore] Hfuel. unfold Market.get_offer_ids.
  change (Market.fetch_loop W get_product_list campaign_id market_token
            fuel (Some "") [] w)
    with (resume fuel (before_request 0 w)).
  rewrite (market_resume_reaches k 0 fuel w Hend)
    by (assumption || (intros; apply Hbefore; lia)).
  rewrite (fold_left_append_map
             (fun e => Market.shopSku (Market.entry_offer e))),
    market_ids_of_entries.
  reflexivity.
Qed.

Lemma market_get_offer_ids_starves (fuel : nat) (w : W) :
  (forall j, (j < fuel)%nat -> signals_end j w = false) ->
  get_offer_ids fuel w = None.
Proof.
  intros Hbefore. unfold Market.get_offer_ids.
  change (Market.fetch_loop W get_product_list campaign_id market_token
            fuel (Some "") [] w)
    with (resume fuel (before_request 0 w)).
  now rewrite market_resume_starves by (intros; apply Hbefore; lia).
Qed.
End MarketCatalog.

Lemma count_occ_flat_map {B} (f : B -> list string) (l : list B) (x : string) :
  count_occ string_dec (flat_map f l) x
  = list_sum (map (fun b => count_occ string_dec (f b) x) l).
Proof.
  induction l as [|b l IH]; simpl; [reflexivity|].
  now rewrite count_occ_app, IH.
Qed.

(** C7.  Both loops return exactly at the first end-of-catalogue signal:
    when page [k] is the first whose total equals the number of items
    fetched so far (Ozon), resp. the first without a non-empty next-page
    token (Yandex Market), the loop returns after [k + 1] requests, and not
    before, the identifiers of the pages [0 .. k] in order; when no page
    ever signals, no number of iterations makes it return. *)
Theorem get_offer_ids_stops_at_first_signal :
  (forall W get_product_list client_id seller_token (w : W) k,
      Seller.first_signal W get_product_list client_id seller_token k w ->
      forall fuel,
        Seller.get_offer_ids W get_product_list client_id seller_token fuel w
        = if (k <? fuel)%nat
          then Some (flat_map Seller.page_ids
                       (Seller.pages_upto W get_product_list client_id
                          seller_token k w),
                     Seller.world_after W get_product_list client_id
                       seller_token k w)
          else None)
  /\ (forall W get_product_list client_id seller_token (w : W),
      (forall k, Seller.signals_end W get_product_list client_id
                   seller_token k w = false) ->
      forall fuel,
        Seller.get_offer_ids W get_product_list client_id seller_token fuel w
        = None)
  /\ (forall W get_product_list campaign_id market_token (w : W) k,
      Market.first_signal W get_product_list campaign_id market_token k w ->
      forall fuel,
        Market.get_offer_ids W get_product_list campaign_id market_token fuel w
        = if (k <? fuel)%nat
          then Some (flat_map Market.page_ids
                       (Market.pages_upto W get_product_list campaign_id
                          market_token k w),
                     Market.world_after W get_product_list campaign_id
                       market_token k w)
          else None)
  /\ (forall W get_product_list campaign_id market_token (w : W),
      (forall k, Market.signals_end W get_product_list campaign_id
                   market_token k w = false) ->
      forall fuel,
        Market.get_offer_ids W get_product_list campaign_id market_token fuel w
        = None).
Proof.
  repeat apply conj.
  - intros W gpl c t w k Hfirst fuel. destruct (Nat.ltb_spec k fuel).
    + now apply seller_get_offer_ids_returns.
    + apply seller_get_offer_ids_starves. intros j Hj.
      apply (proj2 Hfirst). lia.
  - intros W gpl c t w Hnever fuel. now apply seller_get_offer_ids_starves.
  - intros W gpl c t w k Hfirst fuel. destruct (Nat.ltb_spec k fuel).
    + now apply market_get_offer_ids_returns.
    + apply market_get_offer_ids_starves. intros j Hj.
      apply (proj2 Hfirst). lia.
  - intros W gpl c t w Hnever fuel. now apply market_get_offer_ids_starves.
Qed.

Lemma ozon_catalog_first_signal :
  Seller.first_signal _ Seller.scripted "client" "token" 1 ozon_catalog.
Proof.
  split; [reflexivity|]. intros [|j] Hj; [reflexivity|lia].
Defined.

Lemma market_catalog_first_signal :
  Market.first_signal _ Market.scripted "campaign" "token" 1 market_catalog.
Proof.
  split; [reflexivity|]. intros [|j] Hj; [reflexivity|lia].
Defined.

Lemma get_offer_ids_stops_at_first_signal_witness :
  (Seller.get_offer_ids _ Seller.scripted "client" "token" 1 ozon_catalog
   = None
   /\ Seller.get_offer_ids _ Seller.scripted "client" "token" 2 ozon_catalog
      = Some (["A"; "B"; "C"], []))
  /\ (Market.get_offer_ids _ Market.scripted "campaign" "token" 1 market_catalog
      = None
      /\ Market.get_offer_ids _ Market.scripted "campaign" "token" 2 market_catalog
         = Some (["A"; "B"; "C"], [])).
Proof.
  destruct get_offer_ids_stops_at_first_signal as [Hozon [_ [Hmarket _]]].
  split; split.
  - exact (Hozon _ _ _ _ _ _ ozon_catalog_first_signal 1%nat).
  - exact (Hozon _ _ _ _ _ _ ozon_catalog_first_signal 2%nat).
  - exact (Hmarket _ _ _ _ _ _ market_catalog_first_signal 1%nat).
  - exact (Hmarket _ _ _ _ _ _ market_catalog_first_signal 2%nat).
Defined.

(** C6, as the specification has it, fails: an identifier listed twice on
    one page, or on two pages, is returned twice. *)
Lemma get_offer_ids_repeats_counterexample :
  Seller.get_offer_ids _ Seller.scripted "client" "token" 1
    ozon_catalog_repeating = Some (["A"; "A"], [])
  /\ Market.get_offer_ids _ Market.scripted "campaign" "token" 2
       market_catalog_repeating = Some (["A"; "A"], [])
  /\ ~ NoDup ["A"; "A"].
Proof.
  repeat apply conj; try reflexivity.
  intros H. inversion H as [|x l Hnotin _]; subst. apply Hnotin. now left.
Qed.

(** C6, amended.  Once page [k] is the first to signal the end, both
    variants of [get_offer_ids] return, given [k + 1] iterations or more,
    all identifiers of the pages [0 .. k], page after page, nothing dropped
    and nothing merged: an identifier is returned as many times as the
    pages list it. *)
Theorem get_offer_ids_lists_every_page :
  (forall W get_product_list client_id seller_token (w : W) k fuel,
      Seller.first_signal W get_product_list client_id seller_token k w ->
      (k < fuel)%nat ->
      exists offer_ids w',
        Seller.get_offer_ids W get_product_list client_id seller_token fuel w
        = Some (offer_ids, w')
        /\ offer_ids
           = flat_map Seller.page_ids
               (Seller.pages_upto W get_product_list client_id seller_token k w)
        /\ forall x,
            count_occ string_dec offer_ids x
            = list_sum
                (map (fun p => count_occ string_dec (Seller.page_ids p) x)
                     (Seller.pages_upto W get_product_list client_id
                        seller_token k w)))
  /\ (forall W get_product_list campaign_id market_token (w : W) k fuel,
      Market.first_signal W get_product_list campaign_id market_token k w ->
      (k < fuel)%nat ->
      exists offer_ids w',
        Market.get_offer_ids W get_product_list campaign_id market_token fuel w
        = Some (offer_ids, w')
        /\ offer_ids
           = flat_map Market.page_ids
               (Market.pages_upto W get_product_list campaign_id market_token k w)
        /\ forall x,
            count_occ string_dec offer_ids x
            = list_sum
                (map (fun p => count_occ string_dec (Market.page_ids p) x)
                     (Market.pages_upto W get_product_list campaign_id
                        market_token k w))).
Proof.
  split; intros W gpl c t w k fuel Hfirst Hfuel; do 2 eexists;
    (split; [|split; [reflexivity|]]).
  - now apply seller_get_offer_ids_returns.
  - intros x. apply count_occ_flat_map.
  - now apply market_get_offer_ids_returns.
  - intros x. apply count_occ_flat_map.
Qed.

Lemma ozon_catalog_repeating_first_signal :
  Seller.first_signal _ Seller.scripted "client" "token" 0
    ozon_catalog_repeating.
Proof. split; [reflexivity|]. intros j Hj; lia. Defined.

Lemma market_catalog_repeating_first_signal :
  Market.first_signal _ Market.scripted "campaign" "token" 1
    market_catalog_repeating.
Proof.
  split; [reflexivity|]. intros [|j] Hj; [reflexivity|lia].
Defined.

Lemma get_offer_ids_lists_every_page_witness :
  (exists offer_ids w',
      Seller.get_offer_ids _ Seller.scripted "client" "token" 1
        ozon_catalog_repeating = Some (offer_ids, w')
      /\ count_occ string_dec offer_ids "A" = 2%nat)
  /\ (exists offer_ids w',
      Market.get_offer_ids _ Market.scripted "campaign" "token" 2
        market_catalog_repeating = Some (offer_ids, w')
      /\ count_occ string_dec offer_ids "A" = 2%nat).
Proof.
  destruct get_offer_ids_lists_every_page as [Hozon Hmarket].
  split.
  - destruct (Hozon _ _ _ _ _ _ 1%nat ozon_catalog_repeating_first_signal
                ltac:(lia)) as (ids & w' & Hrun & _ & Hcount).
    exists ids, w'. split; [exact Hrun|]. now rewrite Hcount.
  - destruct (Hmarket _ _ _ _ _ _ 2%nat market_catalog_repeating_first_signal
                ltac:(lia)) as (ids & w' & Hrun & _ & Hcount).
    exists ids, w'. split; [exact Hrun|]. now rewrite Hcount.
Defined.

(** ** Reconciliation: create_stocks and create_prices *)

Lemma contains_In (x : string) (l : list string) :
  Py.contains x l = true <-> In x l.
Proof.
  unfold Py.contains. rewrite existsb_exists. split.
  - intros [y [Hin Heq]]. apply String.eqb_eq in Heq. now subst.
  - intros Hin. exists x. split; [assumption | apply String.eqb_refl].
Qed.

Lemma contains_not_In (x : string) (l : list string) :
  Py.contains x l = false <-> ~ In x l.
Proof.
  rewrite <- contains_In. destruct (Py.contains x l); split; congruence.
Qed.

(** [remove] of an element that is there succeeds and takes out one
    occurrence. *)
Lemma remove_present (x : string) (l : list string) :
  In x l -> exists l1, Py.remove x l = Ok l1 /\ Permutation (x :: l1) l.
Proof.
  induction l as [|y l IH]; simpl; intros Hin; [contradiction|].
  destruct (String.eqb_spec y x) as [->|Hne].
  - eexists; split; [reflexivity | apply Permutation_refl].
  - destruct Hin as [Heq|Hin]; [congruence|].
    destruct (IH Hin) as [l1 [-> Hperm]].
    eexists; split; [reflexivity|].
    eapply perm_trans; [apply perm_swap|]. now constructor.
Qed.

(** On a duplicate-free list, [remove] takes out every occurrence. *)
Lemma remove_nodup (x : string) (l l1 : list string) :
  NoDup l -> Py.remove x l = Ok l1 ->
  l1 = filter (fun o => negb (o =? x)%string) l /\ NoDup l1.
Proof.
  revert l1; induction l as [|y l IH]; simpl; intros l1 Hnd Hrm;
    [discriminate|].
  inversion Hnd as [|? ? Hnotin Hnd']; subst.
  destruct (String.eqb_spec y x) as [->|Hne]; simpl.
  - injection Hrm as <-. split; [|assumption].
    symmetry. apply forallb_filter_id. apply forallb_forall. intros o Ho.
    destruct (String.eqb_spec o x); [subst; contradiction | reflexivity].
  - destruct (Py.remove x l) as [l2|e] eqn:E; [|discriminate].
    injection Hrm as <-. destruct (IH l2 Hnd' eq_refl) as [-> Hnd2].
    split; [reflexivity|].
    constructor; [|assumption]. rewrite filter_In. tauto.
Qed.

Lemma filter_filter {A} (f g : A -> bool) (l : list A) :
  filter f (filter g l) = filter (fun x => g x && f x) l.
Proof.
  induction l as [|x l IH]; simpl; [reflexivity|].
  destruct (g x); simpl; [destruct (f x)|]; now rewrite IH.
Qed.

Lemma unmatched_nil (O : list string) : unmatched [] O = O.
Proof.
  unfold unmatched. apply forallb_filter_id, forallb_forall. reflexivity.
Qed.

Lemma unmatched_cons_removed (w : watch) (V : list watch) (O : list string) :
  unmatched V (filter (fun o => negb (o =? Py.str (Kod w))%string) O)
  = unmatched (w :: V) O.
Proof.
  unfold unmatched. rewrite filter_filter. apply filter_ext. intros o.
  unfold Py.contains. simpl. now rewrite negb_orb.
Qed.

Lemma unmatched_cons_absent (w : watch) (V : list watch) (O : list string) :
  ~ In (Py.str (Kod w)) O -> unmatched (w :: V) O = unmatched V O.
Proof.
  intros Hnotin. unfold unmatched. apply filter_ext_in. intros o Ho.
  unfold Py.contains. simpl.
  destruct (String.eqb_spec o (Py.str (Kod w))); [subst; contradiction|].
  reflexivity.
Qed.

Lemma for_in_cons {A L} (x : A) (xs : list A) (body : A -> L -> M L)
      (acc : L) (O : list string) :
  for_in (x :: xs) body acc O
  = match body x acc O with
    | (Ok acc', O1) => for_in xs body acc' O1
    | (Raise e, O1) => (Raise e, O1)
    end.
Proof. reflexivity. Qed.

Section ReconcileFacts.
Context `{PI : Py.PyInt}.
Variable R : Type.
Variable mk : string -> Z -> R.
Variable id_of : R -> string.
Variable count_of : R -> Z.
Hypothesis id_of_mk : forall i n, id_of (mk i n) = i.
Hypothesis count_of_mk : forall i n, count_of (mk i n) = n.

(** One turn of the first loop, on the list [O]. *)
Lemma reconcile_step_run (w : watch) (stocks : list R) (O : list string) :
  reconcile_step R mk w stocks O
  = if Py.contains (Py.str (Kod w)) O then
      match normalize (Kolichestvo w) with
      | Ok n =>
          match Py.remove (Py.str (Kod w)) O with
          | Ok O1 => (Ok (stocks ++ [mk (Py.str (Kod w)) n]), O1)
          | Raise e => (Raise e, O)
          end
      | Raise e => (Raise e, O)
      end
    else (Ok stocks, O).
Proof.
  unfold reconcile_step, bind, get, normalize, list_remove, ret, lift.
  destruct (Py.contains _ O); [|reflexivity].
  destruct (Py.str (Kolichestvo w) =? ">10")%string.
  - destruct (Py.remove _ O); reflexivity.
  - destruct (Py.str (Kolichestvo w) =? "1")%string.
    + destruct (Py.remove _ O); reflexivity.
    + destruct (Py.int _); [destruct (Py.remove _ O)|]; reflexivity.
Qed.

(** The second loop appends one zero-stock record per identifier. *)
Lemma fallback_loop_run (ids : list string) (stocks : list R)
      (O : list string) :
  for_in ids (fun offer_id stocks => ret (stocks ++ [mk offer_id 0])) stocks O
  = (Ok (stocks ++ map (fun offer_id => mk offer_id 0) ids), O).
Proof.
  revert stocks; induction ids as [|i ids IH]; intros stocks.
  - simpl. unfold ret. now rewrite app_nil_r.
  - rewrite for_in_cons. unfold ret at 1. rewrite IH.
    simpl. now rewrite <- app_assoc.
Qed.

(** What the first loop has done when it ends without exception. *)
Lemma match_loop_ok (V : list watch) :
  forall stocks0 O stocks O',
    for_in V (reconcile_step R mk) stocks0 O = (Ok stocks, O') ->
    exists matched,
      stocks = stocks0 ++ matched
      /\ Permutation (map id_of matched ++ O') O
      /\ Forall (from_vendor id_of count_of V) matched
      /\ (NoDup O -> NoDup O' /\ O' = unmatched V O).
Proof.
  induction V as [|w V IH]; intros stocks0 O stocks O' Hrun.
  - injection Hrun as <- <-. exists []. rewrite app_nil_r.
    repeat split; auto. now rewrite unmatched_nil.
  - rewrite for_in_cons, reconcile_step_run in Hrun.
    destruct (Py.contains (Py.str (Kod w)) O) eqn:Hc.
    + destruct (normalize (Kolichestvo w)) as [n|e] eqn:Hn; [|discriminate].
      apply contains_In in Hc.
      destruct (remove_present _ _ Hc) as [O1 [Hrm Hperm]].
      rewrite Hrm in Hrun.
      destruct (IH _ _ _ _ Hrun) as [matched [-> [Hp [Hall Hnd]]]].
      exists (mk (Py.str (Kod w)) n :: matched).
      split; [now rewrite <- app_assoc|]. split; [|split].
      * simpl. rewrite id_of_mk, <- Hperm. now constructor.
      * constructor.
        { exists w. rewrite id_of_mk, count_of_mk. simpl; auto. }
        eapply Forall_impl; [|exact Hall].
        intros r [w' [Hin H]]. exists w'. simpl; auto.
      * intros HndO. destruct (remove_nodup _ _ _ HndO Hrm) as [HO1 HndO1].
        destruct (Hnd HndO1) as [HndO' HO']. split; [assumption|].
        now rewrite HO', HO1, unmatched_cons_removed.
    + apply contains_not_In in Hc.
      destruct (IH _ _ _ _ Hrun) as [matched [-> [Hp [Hall Hnd]]]].
      exists matched. repeat split; auto.
      * eapply Forall_impl; [|exact Hall].
        intros r [w' [Hin H]]. exists w'. simpl; auto.
      * now apply Hnd.
      * rewrite unmatched_cons_absent by assumption. now apply Hnd.
Qed.

Lemma without_first_removed (x : string) (O O1 : list string) :
  Py.remove x O = Ok O1 -> without_first x O = O1.
Proof. unfold without_first. now intros ->. Qed.

(** The first loop returns when the quantity of every record it matches
    normalises, and raises when one does not. *)
Lemma match_loop_exact (V : list watch) :
  forall stocks0 O,
    (forallb quantity_ok (matched_rows V O) = true ->
     exists stocks O',
       for_in V (reconcile_step R mk) stocks0 O = (Ok stocks, O'))
    /\ (forallb quantity_ok (matched_rows V O) = false ->
        exists e O',
          for_in V (reconcile_step R mk) stocks0 O = (Raise e, O')).
Proof.
  induction V as [|w V IH]; intros stocks0 O.
  - split; [do 2 eexists; reflexivity | discriminate].
  - rewrite for_in_cons, reconcile_step_run. cbn [matched_rows].
    destruct (Py.contains (Py.str (Kod w)) O) eqn:Hc; [|apply IH].
    apply contains_In in Hc. destruct (remove_present _ _ Hc) as [O1 [Hrm _]].
    rewrite Hrm, (without_first_removed _ _ _ Hrm).
    cbn [forallb]. unfold quantity_ok at 1 3.
    destruct (normalize (Kolichestvo w)) as [n|e]; [apply IH|].
    split; [discriminate|]. intros _. do 2 eexists; reflexivity.
Qed.

Lemma reconcile_exact (V : list watch) (O : list string) :
  (forallb quantity_ok (matched_rows V O) = true ->
   exists stocks O', reconcile R mk V O = (Ok stocks, O'))
  /\ (forallb quantity_ok (matched_rows V O) = false ->
      exists e O', reconcile R mk V O = (Raise e, O')).
Proof.
  destruct (match_loop_exact V [] O) as [Hok Hraise].
  unfold reconcile, bind, get. split; intros Hq.
  - destruct (Hok Hq) as [st [O1 ->]]. rewrite fallback_loop_run.
    do 2 eexists; reflexivity.
  - destruct (Hraise Hq) as [e [O1 ->]]. do 2 eexists; reflexivity.
Qed.

Lemma reconcile_covers (V : list watch) (O : list string)
      (stocks : list R) (O' : list string) :
  reconcile R mk V O = (Ok stocks, O') ->
  covers id_of count_of V O stocks O'.
Proof.
  unfold reconcile, bind, get.
  destruct (for_in V (reconcile_step R mk) [] O) as [[st|e] O1] eqn:Hrun;
    [|discriminate].
  rewrite fallback_loop_run. intros H; injection H as <- <-.
  destruct (match_loop_ok V _ _ _ _ Hrun) as [matched [-> [Hp [Hall Hnd]]]].
  simpl app.
  assert (Hids : map id_of (map (fun o => mk o 0) O1) = O1).
  { rewrite map_map. erewrite map_ext; [apply map_id|].
    intros o. apply id_of_mk. }
  assert (Hperm : Permutation
                    (map id_of (matched ++ map (fun o => mk o 0) O1)) O)
    by now rewrite map_app, Hids.
  unfold covers. split; [|split; [exact Hperm|split]].
  - rewrite <- (Permutation_length Hperm). now rewrite length_map.
  - exists matched, (map (fun o => mk o 0) O1).
    repeat split; auto.
    apply Forall_forall. intros r Hr. apply in_map_iff in Hr as [o [<- _]].
    apply count_of_mk.
  - intros HndO. split; [|now apply Hnd].
    intros x Hx. apply (proj1 (NoDup_count_occ' string_dec _)).
    + eapply Permutation_NoDup; [symmetry; exact Hperm | exact HndO].
    + eapply Permutation_in; [symmetry; exact Hperm | assumption].
Qed.

Lemma reconcile_no_vendor (O : list string) :
  reconcile R mk [] O = (Ok (map (fun o => mk o 0) O), O).
Proof. unfold reconcile, bind, get. simpl. now rewrite fallback_loop_run. Qed.
End ReconcileFacts.

Lemma seller_create_stocks_reconcile `{PI : Py.PyInt} (V : list watch) :
  Seller.create_stocks V = reconcile _ seller_stock V.
Proof. reflexivity. Qed.

Lemma market_create_stocks_reconcile `{PI : Py.PyInt} (date : string) (V : list watch)
      (warehouse_id : string) :
  Market.create_stocks date V warehouse_id
  = reconcile _ (market_stock date warehouse_id) V.
Proof. reflexivity. Qed.

Lemma unmatched_all_matched (V : list watch) (O : list string) :
  (forall x, In x O -> In x (codes V)) -> unmatched V O = [].
Proof.
  intros Hall. unfold unmatched.
  induction O as [|o O IH]; simpl; [reflexivity|].
  rewrite (proj2 (contains_In o (codes V))) by (apply Hall; now left).
  simpl. apply IH. intros x Hx. apply Hall. now right.
Qed.

(** C1, as the specification has it, fails on a list that names an
    identifier twice (the vendor record takes one occurrence, the other
    gets a fallback record: two records for ["A"]), and on a matched
    record with a blank quantity (an exception, no list). *)
Lemma create_stocks_counterexample :
  Seller.create_stocks [watch_A] ["A"; "A"]
    = (Ok [seller_stock "A" 5; seller_stock "A" 0], ["A"])
  /\ count_occ string_dec
       (map Seller.stock_offer_id [seller_stock "A" 5; seller_stock "A" 0])
       "A" = 2%nat
  /\ Market.create_stocks "date" [watch_A] "warehouse" ["A"; "A"]
     = (Ok [market_stock "date" "warehouse" "A" 5;
            market_stock "date" "warehouse" "A" 0], ["A"])
  /\ Seller.create_stocks [watch_blank_quantity] ["B"]
     = (Raise ValueError, ["B"])
  /\ Market.create_stocks "date" [watch_blank_quantity] "warehouse" ["B"]
     = (Raise ValueError, ["B"]).
Proof. repeat apply conj; reflexivity. Qed.

(** C1, amended.  Both [create_stocks] return a list exactly when the
    quantity of every vendor record they match (see [matched_rows])
    normalises, and raise when the quantity of one of them does not; a
    list they return for [V] and [O] covers [O] (see [covers]): [len O]
    records, whose identifiers are those of [O] up to order, matched
    records first and zero-stock fallbacks for the identifiers left in the
    list after them; when [O] is duplicate-free each identifier is in
    exactly one record and the identifiers left are those without vendor
    record.  With no vendor record all records are fallbacks, in the order
    of [O]; when every identifier has a vendor record, no identifier is
    unmatched. *)
Theorem create_stocks_covers_offer_ids `{PI : Py.PyInt}
        (date warehouse_id : string) (V : list watch) (O : list string) :
  (forallb quantity_ok (matched_rows V O) = true ->
   (exists stocks O', Seller.create_stocks V O = (Ok stocks, O'))
   /\ (exists stocks O',
          Market.create_stocks date V warehouse_id O = (Ok stocks, O')))
  /\ (forallb quantity_ok (matched_rows V O) = false ->
      (exists e O', Seller.create_stocks V O = (Raise e, O'))
      /\ (exists e O',
             Market.create_stocks date V warehouse_id O = (Raise e, O')))
  /\ (forall stocks O',
         Seller.create_stocks V O = (Ok stocks, O') ->
         covers Seller.stock_offer_id Seller.stock V O stocks O')
  /\ (forall stocks O',
         Market.create_stocks date V warehouse_id O = (Ok stocks, O') ->
         covers Market.sku market_count V O stocks O')
  /\ Seller.create_stocks [] O
     = (Ok (map (fun offer_id => seller_stock offer_id 0) O), O)
  /\ Market.create_stocks date [] warehouse_id O
     = (Ok (map (fun offer_id => market_stock date warehouse_id offer_id 0) O),
        O)
  /\ ((forall x, In x O -> In x (codes V)) -> unmatched V O = []).
Proof.
  repeat apply conj.
  - intros Hok. split.
    + now apply (reconcile_exact _ seller_stock).
    + now apply (reconcile_exact _ (market_stock date warehouse_id)).
  - intros Hbad. split.
    + now apply (reconcile_exact _ seller_stock).
    + now apply (reconcile_exact _ (market_stock date warehouse_id)).
  - intros stocks O' Hrun.
    apply (reconcile_covers _ seller_stock); auto.
  - intros stocks O' Hrun.
    apply (reconcile_covers _ (market_stock date warehouse_id)); auto.
  - apply (reconcile_no_vendor _ seller_stock).
  - apply (reconcile_no_vendor _ (market_stock date warehouse_id)).
  - apply unmatched_all_matched.
Qed.

Lemma create_stocks_covers_offer_ids_witness :
  forallb quantity_ok
    (matched_rows [watch_blank_quantity; watch_A] ["A"; "C"]) = true
  /\ (exists stocks O',
         Seller.create_stocks [watch_blank_quantity; watch_A] ["A"; "C"]
         = (Ok stocks, O')
         /\ covers Seller.stock_offer_id Seller.stock
              [watch_blank_quantity; watch_A] ["A"; "C"] stocks O')
  /\ (exists stocks O',
         Market.create_stocks "date" [watch_blank_quantity; watch_A]
           "warehouse" ["A"; "C"] = (Ok stocks, O')
         /\ covers Market.sku market_count
              [watch_blank_quantity; watch_A] ["A"; "C"] stocks O').
Proof.
  destruct (create_stocks_covers_offer_ids
              "date" "warehouse" [watch_blank_quantity; watch_A] ["A"; "C"])
    as (Hreturns & _ & Hseller & Hmarket & _).
  split; [reflexivity|].
  destruct (Hreturns eq_refl) as [(s1 & O1 & H1) (s2 & O2 & H2)].
  split.
  - exists s1, O1. split; [exact H1 | exact (Hseller _ _ H1)].
  - exists s2, O2. split; [exact H2 | exact (Hmarket _ _ H2)].
Defined.



(** A loop whose body leaves the list alone leaves the list alone. *)
Lemma for_in_frame {A L} (xs : list A) (body : A -> L -> M L) :
  (forall x acc O, snd (body x acc O) = O) ->
  forall acc O, snd (for_in xs body acc O) = O.
Proof.
  intros Hbody. induction xs as [|x xs IH]; intros acc O; [reflexivity|].
  rewrite for_in_cons. specialize (Hbody x acc O).
  destruct (body x acc O) as [[acc'|e] O1]; simpl in Hbody; subst O1.
  - apply IH.
  - reflexivity.
Qed.

(** A loop whose body does nothing on the list [O] does nothing. *)
Lemma for_in_skip {A L} (xs : list A) (body : A -> L -> M L)
      (acc : L) (O : list string) :
  (forall x, In x xs -> body x acc O = (Ok acc, O)) ->
  for_in xs body acc O = (Ok acc, O).
Proof.
  induction xs as [|x xs IH]; intros Hbody; [reflexivity|].
  rewrite for_in_cons, Hbody by now left.
  apply IH. intros y Hy. apply Hbody. now right.
Qed.

Lemma unmatched_not_contains (V : list watch) (O : list string) (w : watch) :
  In w V -> Py.contains (Py.str (Kod w)) (unmatched V O) = false.
Proof.
  intros Hw. apply contains_not_In. unfold unmatched. rewrite filter_In.
  intros [_ Hneg].
  rewrite (proj2 (contains_In _ (codes V))) in Hneg; [discriminate|].
  unfold codes. now apply (in_map (fun w => Py.str (Kod w))).
Qed.

Lemma create_prices_unmatched (V : list watch) (O : list string) :
  (forall w, In w V -> Py.contains (Py.str (Kod w)) O = false) ->
  Seller.create_prices V O = (Ok [], O).
Proof.
  intros Hnone. unfold Seller.create_prices. apply for_in_skip.
  intros w Hw. unfold bind, get. now rewrite (Hnone w Hw).
Qed.

Lemma scenario_offer_ids_nodup : NoDup scenario_offer_ids.
Proof.
  unfold scenario_offer_ids.
  repeat constructor; simpl; intuition discriminate.
Qed.

(** C9.  In [main] of seller.py, [create_prices] is given the list that
    [create_stocks] has just drained.  For a duplicate-free list, what
    [create_stocks] leaves are the identifiers without vendor record; no
    vendor record matches any of them, so [create_prices] returns the
    empty list, and [main] has no price batch to send. *)
Theorem main_prices_after_stocks_empty `{PI : Py.PyInt}
        (V : list watch) (O : list string)
        (stocks : list Seller.stock_record) (O' : list string) :
  NoDup O ->
  Seller.create_stocks V O = (Ok stocks, O') ->
  O' = unmatched V O
  /\ (forall w, In w V -> Py.contains (Py.str (Kod w)) O' = false)
  /\ Seller.create_prices V O' = (Ok [], O')
  /\ exists stock_batches,
      Seller.main_batches V O = (Ok (stock_batches, []), O').
Proof.
  intros Hnd Hrun.
  pose proof (reconcile_covers _ seller_stock Seller.stock_offer_id
                Seller.stock (fun _ _ => eq_refl) (fun _ _ => eq_refl)
                V O stocks O' Hrun) as (_ & _ & _ & Hdrained).
  destruct (Hdrained Hnd) as [_ HO'].
  assert (Hnone : forall w, In w V -> Py.contains (Py.str (Kod w)) O' = false)
    by (intros w Hw; rewrite HO'; now apply unmatched_not_contains).
  repeat apply conj; auto using create_prices_unmatched.
  unfold Seller.main_batches, bind. rewrite Hrun.
  unfold lift at 1. rewrite (divide_chunks stocks 100) by lia.
  rewrite (create_prices_unmatched V O' Hnone).
  eexists. reflexivity.
Qed.

Lemma main_prices_after_stocks_empty_witness :
  NoDup scenario_offer_ids
  /\ Seller.create_stocks scenario_records scenario_offer_ids
     = (Ok [seller_stock "A1" 100; seller_stock "A2" 0; seller_stock "A3" 0],
        ["A3"])
  /\ Seller.create_prices scenario_records ["A3"] = (Ok [], ["A3"]).
Proof.
  split; [exact scenario_offer_ids_nodup|]. split; [reflexivity|].
  exact (proj1 (proj2 (proj2
           (main_prices_after_stocks_empty
              scenario_records scenario_offer_ids _ ["A3"]
              scenario_offer_ids_nodup eq_refl)))).
Defined.

(** C10.  Neither [create_prices] changes the list it is given, whether
    it returns or raises; [create_stocks] does change it. *)
Theorem create_prices_leaves_offer_ids `{PI : Py.PyInt} (V : list watch) (O : list string) :
  snd (Seller.create_prices V O) = O
  /\ snd (Market.create_prices V O) = O
  /\ snd (Seller.create_stocks scenario_records scenario_offer_ids) = ["A3"]
  /\ snd (Market.create_stocks "date" scenario_records "warehouse"
            scenario_offer_ids) = ["A3"].
Proof.
  repeat apply conj; try reflexivity.
  - apply for_in_frame. intros w acc O0. unfold bind, get, lift, ret.
    destruct (Py.contains _ O0); [|reflexivity].
    destruct (Seller.price_conversion _); reflexivity.
  - apply for_in_frame. intros w acc O0. unfold bind, get, lift, ret.
    destruct (Py.contains _ O0); [|reflexivity].
    destruct (Seller.price_conversion _); [|reflexivity].
    destruct (Py.int_text _); reflexivity.
Qed.

(** * Further properties of the code *)

(** ** price_conversion and divide at their edges *)

Lemma price_conversion_text (s : string) :
  exists piece,
    Seller.price_conversion (VStr s) = Ok (Py.re_sub_non_digits piece).
Proof.
  unfold Seller.price_conversion.
  pose proof (split_nonempty "." s) as H.
  destruct (Py.split "." s) as [|piece pieces]; [congruence|].
  exists piece. reflexivity.
Qed.

Lemma re_sub_all_digits (s : string) :
  all_digits (Py.re_sub_non_digits s) = true.
Proof.
  induction s as [|c s IH]; simpl; [reflexivity|].
  destruct (Py.is_digit c) eqn:Hc; simpl; [now rewrite Hc|assumption].
Qed.

Lemma re_sub_fixes_digits (s : string) :
  all_digits s = true -> Py.re_sub_non_digits s = s.
Proof.
  induction s as [|c s IH]; simpl; intros H; [reflexivity|].
  apply andb_prop in H as [Hc Hs]. now rewrite Hc, IH.
Qed.

Lemma all_digits_no_period (s : string) :
  all_digits s = true -> contains_period s = false.
Proof.
  induction s as [|c s IH]; simpl; intros H; [reflexivity|].
  apply andb_prop in H as [Hc Hs]. rewrite (IH Hs), orb_false_r.
  destruct (Ascii.eqb_spec c "."); [subst; discriminate|reflexivity].
Qed.

(** X1.  What [price_conversion] returns is made of decimal digits only,
    and converting it again changes nothing. *)
Theorem price_conversion_idempotent (s out : string) :
  Seller.price_conversion (VStr s) = Ok out ->
  all_digits out = true
  /\ Seller.price_conversion (VStr out) = Ok out.
Proof.
  intros H. destruct (price_conversion_text s) as [piece Hp].
  rewrite Hp in H. injection H as <-.
  pose proof (re_sub_all_digits piece) as Hd. split; [exact Hd|].
  unfold Seller.price_conversion.
  rewrite (split_no_period _ (all_digits_no_period _ Hd)). simpl.
  now rewrite (re_sub_fixes_digits _ Hd).
Qed.

Lemma price_conversion_idempotent_witness :
  Seller.price_conversion (VStr "1 250.50 руб.") = Ok "1250"
  /\ all_digits "1250" = true
  /\ Seller.price_conversion (VStr "1250") = Ok "1250".
Proof.
  split; [reflexivity|].
  exact (price_conversion_idempotent "1 250.50 руб." "1250" eq_refl).
Defined.

(** X2.  [divide] with a chunk size that is not positive: size 0 raises
    [ValueError] (the zero step of [range]); a negative size yields no
    chunk at all, whatever the list holds. *)
Theorem divide_nonpositive {A} (lst : list A) (n : Z) :
  n <= 0 ->
  Seller.divide lst n = if n =? 0 then Raise ValueError else Ok [].
Proof.
  intros Hn. unfold Seller.divide, Py.range, Py.range_len.
  destruct (Z.eqb_spec n 0); [reflexivity|].
  destruct (Z.ltb_spec 0 n); [lia|]. simpl.
  destruct (Z.ltb_spec n 0); [|lia]. simpl.
  destruct (Z.ltb_spec (Z.of_nat (List.length lst)) 0); [lia|].
  reflexivity.
Qed.

Lemma divide_nonpositive_witness :
  -1 <= 0
  /\ Seller.divide [1; 2; 3] (-1) = Ok []
  /\ Seller.divide [1; 2; 3] 0 = Raise ValueError.
Proof.
  split; [discriminate|]. split.
  - exact (divide_nonpositive [1; 2; 3] (-1) ltac:(discriminate)).
  - exact (divide_nonpositive [1; 2; 3] 0 ltac:(discriminate)).
Defined.

(** ** create_stocks: exceptions, repeated vendor codes, the two variants *)

Lemma remove_incl (x : string) (l l1 : list string) :
  Py.remove x l = Ok l1 -> incl l1 l.
Proof.
  revert l1; induction l as [|y l IH]; simpl; intros l1 H; [discriminate|].
  destruct (String.eqb y x).
  - injection H as <-. apply incl_tl, incl_refl.
  - destruct (Py.remove x l) as [l2|e]; [|discriminate].
    injection H as <-. apply incl_cons; [now left|].
    apply incl_tl. now apply IH.
Qed.

Lemma normalize_raise `{PI : Py.PyInt} (q : pyval) (e : exn) :
  normalize q = Raise e ->
  Py.int q = Raise e /\ Py.str q <> ">10" /\ Py.str q <> "1".
Proof.
  unfold normalize.
  destruct (String.eqb_spec (Py.str q) ">10"); [discriminate|].
  destruct (String.eqb_spec (Py.str q) "1"); [discriminate|].
  auto.
Qed.

Section ReconcileMore.
Context `{PI : Py.PyInt}.
Variable R : Type.
Variable mk : string -> Z -> R.

(** An exception in the first loop is the one [int()] raised on the
    quantity of a record whose code was in the list. *)
Lemma match_loop_raise (V : list watch) :
  forall stocks0 O e O',
    for_in V (reconcile_step R mk) stocks0 O = (Raise e, O') ->
    (exists w, In w V /\ In (Py.str (Kod w)) O
               /\ normalize (Kolichestvo w) = Raise e)
    /\ incl O' O.
Proof.
  induction V as [|w V IH]; intros stocks0 O e O' Hrun; [discriminate|].
  rewrite for_in_cons, reconcile_step_run in Hrun.
  destruct (Py.contains (Py.str (Kod w)) O) eqn:Hc.
  - apply contains_In in Hc.
    destruct (normalize (Kolichestvo w)) as [n|e'] eqn:Hn.
    + destruct (remove_present _ _ Hc) as [O1 [Hrm _]]. rewrite Hrm in Hrun.
      pose proof (remove_incl _ _ _ Hrm) as Hincl.
      destruct (IH _ _ _ _ Hrun) as [[w' [Hin [HinO He]]] Hsub]. split.
      * exists w'. repeat split; auto. now right.
      * eapply incl_tran; eassumption.
    + injection Hrun as <- <-. split; [|apply incl_refl].
      exists w. repeat split; auto. now left.
  - destruct (IH _ _ _ _ Hrun) as [[w' [Hin [HinO He]]] Hsub]. split; auto.
    exists w'. repeat split; auto. now right.
Qed.

Lemma reconcile_raise (V : list watch) (O : list string) (e : exn)
      (O' : list string) :
  reconcile R mk V O = (Raise e, O') ->
  (exists w, In w V /\ In (Py.str (Kod w)) O
             /\ normalize (Kolichestvo w) = Raise e)
  /\ incl O' O.
Proof.
  unfold reconcile, bind, get.
  destruct (for_in V (reconcile_step R mk) [] O) as [[st|e'] O1] eqn:Hrun.
  - rewrite fallback_loop_run. discriminate.
  - intros H; injection H as <- <-. now apply match_loop_raise in Hrun.
Qed.

(** A record whose code is not in the list has no effect. *)
Lemma match_loop_absent (w : watch) (V2 : list watch) (V1 : list watch) :
  forall stocks0 O,
    ~ In (Py.str (Kod w)) O ->
    for_in (V1 ++ w :: V2) (reconcile_step R mk) stocks0 O
    = for_in (V1 ++ V2) (reconcile_step R mk) stocks0 O.
Proof.
  induction V1 as [|w1 V1 IH]; intros stocks0 O Habs; simpl app.
  - rewrite for_in_cons, reconcile_step_run.
    now rewrite (proj2 (contains_not_In _ _) Habs).
  - rewrite !for_in_cons, reconcile_step_run.
    destruct (Py.contains (Py.str (Kod w1)) O) eqn:Hc; [|now apply IH].
    destruct (normalize (Kolichestvo w1)); [|reflexivity].
    destruct (Py.remove (Py.str (Kod w1)) O) as [O1|] eqn:Hrm; [|reflexivity].
    apply IH. intros Hin. apply Habs. eapply remove_incl; eassumption.
Qed.

(** On a duplicate-free list, a record whose code an earlier record had
    has no effect. *)
Lemma match_loop_repeat (w : watch) (V2 : list watch) (V1 : list watch) :
  forall stocks0 O,
    NoDup O ->
    In (Py.str (Kod w)) (codes V1) ->
    for_in (V1 ++ w :: V2) (reconcile_step R mk) stocks0 O
    = for_in (V1 ++ V2) (reconcile_step R mk) stocks0 O.
Proof.
  induction V1 as [|w1 V1 IH]; intros stocks0 O Hnd Hin; [contradiction|].
  simpl app. rewrite !for_in_cons, reconcile_step_run.
  destruct (Py.contains (Py.str (Kod w1)) O) eqn:Hc.
  - destruct (normalize (Kolichestvo w1)); [|reflexivity].
    destruct (Py.remove (Py.str (Kod w1)) O) as [O1|] eqn:Hrm; [|reflexivity].
    destruct (remove_nodup _ _ _ Hnd Hrm) as [HO1 HndO1].
    destruct (in_dec string_dec (Py.str (Kod w)) (codes V1)) as [Hlater|Hnot].
    + now apply IH.
    + destruct Hin as [Heq|Hin]; [|contradiction].
      apply match_loop_absent. rewrite HO1, filter_In, <- Heq.
      rewrite String.eqb_refl. intros [_ H]; discriminate.
  - destruct (in_dec string_dec (Py.str (Kod w)) (codes V1)) as [Hlater|Hnot].
    + now apply IH.
    + destruct Hin as [Heq|Hin]; [|contradiction].
      apply match_loop_absent. rewrite <- Heq. now apply contains_not_In.
Qed.

Lemma reconcile_repeat (w : watch) (V1 V2 : list watch) (O : list string) :
  NoDup O ->
  In (Py.str (Kod w)) (codes V1) ->
  reconcile R mk (V1 ++ w :: V2) O = reconcile R mk (V1 ++ V2) O.
Proof.
  intros Hnd Hin. unfold reconcile, bind, get.
  now rewrite match_loop_repeat.
Qed.

(** The records are the images of the pairs the bare reconciliation
    collects. *)
Lemma match_loop_pairs (V : list watch) :
  forall pairs O,
    for_in V (reconcile_step R mk) (map (fun p => mk (fst p) (snd p)) pairs) O
    = match for_in V (reconcile_step (string * Z) pair) pairs O with
      | (Ok l, O') => (Ok (map (fun p => mk (fst p) (snd p)) l), O')
      | (Raise e, O') => (Raise e, O')
      end.
Proof.
  induction V as [|w V IH]; intros pairs O; [reflexivity|].
  rewrite !for_in_cons, !reconcile_step_run.
  destruct (Py.contains (Py.str (Kod w)) O); [|apply IH].
  destruct (normalize (Kolichestvo w)) as [n|]; [|reflexivity].
  destruct (Py.remove (Py.str (Kod w)) O) as [O1|]; [|reflexivity].
  rewrite <- IH. now rewrite map_app.
Qed.

Lemma reconcile_pairs_image (V : list watch) (O : list string) :
  reconcile R mk V O
  = match reconcile_pairs V O with
    | (Ok l, O') => (Ok (map (fun p => mk (fst p) (snd p)) l), O')
    | (Raise e, O') => (Raise e, O')
    end.
Proof.
  unfold reconcile_pairs, reconcile, bind, get.
  pose proof (match_loop_pairs V [] O) as H. simpl map in H. rewrite H.
  destruct (for_in V (reconcile_step (string * Z) pair) [] O) as [[l|e] O'];
    [|reflexivity].
  rewrite !fallback_loop_run, map_app, map_map. reflexivity.
Qed.
End ReconcileMore.

(** X3.  When a [create_stocks] raises, it is [int()] raising on the
    quantity of a vendor record whose code is in the list, a quantity
    whose text is neither [">10"] nor ["1"]; [remove] never raises.  The
    list then holds some of the identifiers it held, and no other. *)
Theorem create_stocks_raises_from_int `{PI : Py.PyInt}
        (date warehouse_id : string) (V : list watch) (O : list string)
        (e : exn) (O' : list string) :
  Seller.create_stocks V O = (Raise e, O')
  \/ Market.create_stocks date V warehouse_id O = (Raise e, O') ->
  (exists w,
      In w V
      /\ In (Py.str (Kod w)) O
      /\ Py.int (Kolichestvo w) = Raise e
      /\ Py.str (Kolichestvo w) <> ">10"
      /\ Py.str (Kolichestvo w) <> "1")
  /\ incl O' O.
Proof.
  intros [Hrun|Hrun];
    [apply (reconcile_raise _ seller_stock) in Hrun
    |apply (reconcile_raise _ (market_stock date warehouse_id)) in Hrun];
    destruct Hrun as [[w [Hin [HinO Hn]]] Hsub];
    (split; [|exact Hsub]); exists w;
    apply normalize_raise in Hn; tauto.
Qed.

Lemma create_stocks_raises_from_int_witness :
  Seller.create_stocks [watch_A; watch_blank_quantity] ["A"; "B"; "C"]
    = (Raise ValueError, ["B"; "C"])
  /\ (exists w,
         In w [watch_A; watch_blank_quantity]
         /\ In (Py.str (Kod w)) ["A"; "B"; "C"]
         /\ Py.int (Kolichestvo w) = Raise ValueError
         /\ Py.str (Kolichestvo w) <> ">10"
         /\ Py.str (Kolichestvo w) <> "1")
  /\ incl ["B"; "C"] ["A"; "B"; "C"].
Proof.
  split; [reflexivity|].
  exact (create_stocks_raises_from_int
           "date" "warehouse" [watch_A; watch_blank_quantity]
           ["A"; "B"; "C"] ValueError ["B"; "C"] (or_introl eq_refl)).
Defined.

(** X4.  With a duplicate-free list, a vendor record whose code an
    earlier vendor record already had is ignored by both [create_stocks]:
    the first record of a code decides, and a later one is not even
    parsed. *)
Theorem create_stocks_first_vendor_record_wins `{PI : Py.PyInt}
        (date warehouse_id : string) (w : watch) (V1 V2 : list watch)
        (O : list string) :
  NoDup O ->
  In (Py.str (Kod w)) (codes V1) ->
  Seller.create_stocks (V1 ++ w :: V2) O = Seller.create_stocks (V1 ++ V2) O
  /\ Market.create_stocks date (V1 ++ w :: V2) warehouse_id O
     = Market.create_stocks date (V1 ++ V2) warehouse_id O.
Proof.
  intros Hnd Hin. split.
  - now apply (reconcile_repeat _ seller_stock).
  - now apply (reconcile_repeat _ (market_stock date warehouse_id)).
Qed.

Lemma nodup_A_B : NoDup ["A"; "B"].
Proof. repeat constructor; simpl; intuition discriminate. Qed.

Lemma create_stocks_first_vendor_record_wins_witness :
  NoDup ["A"; "B"]
  /\ In (Py.str (Kod watch_A_again)) (codes [watch_A])
  /\ Seller.create_stocks ([watch_A] ++ watch_A_again :: []) ["A"; "B"]
     = (Ok [seller_stock "A" 5; seller_stock "B" 0], ["B"]).
Proof.
  split; [exact nodup_A_B|]. split; [now left|].
  rewrite (proj1 (create_stocks_first_vendor_record_wins
                    "date" "warehouse" watch_A_again [watch_A] []
                    ["A"; "B"] nodup_A_B (or_introl eq_refl))).
  reflexivity.
Defined.

(** X5.  The two [create_stocks] reconcile alike: on the same vendor
    records and list they raise the same exception, or return records
    with the same identifiers and counts in the same order, and leave the
    same list; every Yandex Market record is for the given warehouse and
    holds one item, of type FIT, with the time stamp of the call. *)
Theorem create_stocks_variants_agree `{PI : Py.PyInt}
        (date warehouse_id : string) (V : list watch) (O : list string) :
  match Seller.create_stocks V O,
        Market.create_stocks date V warehouse_id O with
  | (Ok stocks, O1), (Ok skus, O2) =>
      O1 = O2
      /\ map seller_view stocks = map market_view skus
      /\ Forall (fun r =>
                   Market.warehouseId r = warehouse_id
                   /\ Market.items r = [market_item date (market_count r)])
                skus
  | (Raise e1, O1), (Raise e2, O2) => e1 = e2 /\ O1 = O2
  | _, _ => False
  end.
Proof.
  rewrite seller_create_stocks_reconcile, market_create_stocks_reconcile.
  rewrite (reconcile_pairs_image _ seller_stock),
    (reconcile_pairs_image _ (market_stock date warehouse_id)).
  destruct (reconcile_pairs V O) as [[l|e] O']; [|split; reflexivity].
  split; [reflexivity|]. split.
  - rewrite !map_map. apply map_ext. now intros [i n].
  - apply Forall_forall. intros r Hr. apply in_map_iff in Hr as [[i n] [<- _]].
    split; reflexivity.
Qed.

(** ** int() on decimal texts *)

Lemma digits_all_digits (s : string) :
  forall prev_digit acc,
    all_digits s = true ->
    s <> "" \/ prev_digit = true ->
    Py.digits s prev_digit acc = Some (digits_value s acc).
Proof.
  induction s as [|c s IH]; intros b acc Hd Hne; simpl.
  - destruct Hne as [Hne| ->]; [congruence|reflexivity].
  - simpl in Hd. apply andb_prop in Hd as [Hc Hs]. rewrite Hc.
    apply IH; auto.
Qed.

Lemma digit_val_bounds (c : ascii) :
  Py.is_digit c = true -> 0 <= Py.digit_val c <= 9.
Proof.
  unfold Py.is_digit, Py.digit_val. cbv zeta. intros H.
  apply andb_prop in H as [H1 H2].
  apply Nat.leb_le in H1. apply Nat.leb_le in H2. lia.
Qed.

Lemma digits_value_nonneg (s : string) :
  forall acc, all_digits s = true -> 0 <= acc -> 0 <= digits_value s acc.
Proof.
  induction s as [|c s IH]; intros acc Hd Hacc; cbn [digits_value];
    [assumption|].
  simpl in Hd. apply andb_prop in Hd as [Hc Hs].
  apply IH; [assumption|]. pose proof (digit_val_bounds c Hc). lia.
Qed.

(** [int()] of a non-empty text of at most [max_str_digits] digits is the
    number it writes; after a minus sign, its opposite. *)
Lemma int_text_all_digits `{PI : Py.PyInt} (s : string) :
  all_digits s = true -> s <> "" ->
  (String.length s <= Py.max_str_digits)%nat ->
  Py.int_text s = Ok (digits_value s 0)
  /\ Py.int_text (String "-" s) = Ok (- digits_value s 0).
Proof.
  intros Hd Hne Hlen. apply Py.int_text_digits; [exact Hlen|].
  apply digits_all_digits; [exact Hd|now left].
Qed.

(** ** create_prices *)

Lemma seller_create_prices_loop (V : list watch) :
  Seller.create_prices V = for_in V seller_price_step [].
Proof. reflexivity. Qed.

Lemma market_create_prices_loop `{PI : Py.PyInt} (V : list watch) :
  Market.create_prices V = for_in V market_price_step [].
Proof. reflexivity. Qed.

Lemma text_price_converted (w : watch) :
  text_price w = true ->
  Seller.price_conversion (Tsena w) = Ok (converted w)
  /\ all_digits (converted w) = true.
Proof.
  unfold text_price, converted. destruct (Tsena w) as [| | |s]; try discriminate.
  intros _. destruct (price_conversion_text s) as [piece ->].
  split; [reflexivity | apply re_sub_all_digits].
Qed.

Lemma not_text_price_raises (w : watch) :
  text_price w = false ->
  Seller.price_conversion (Tsena w) = Raise AttributeError.
Proof.
  unfold text_price. destruct (Tsena w); try discriminate; reflexivity.
Qed.

Lemma listed_cons (O : list string) (w : watch) (V : list watch) :
  listed O (w :: V)
  = if Py.contains (Py.str (Kod w)) O then w :: listed O V else listed O V.
Proof. reflexivity. Qed.

Lemma seller_prices_run (V : list watch) :
  forall prices O,
    for_in V seller_price_step prices O
    = if forallb text_price (listed O V)
      then (Ok (prices ++ map seller_price_of (listed O V)), O)
      else (Raise AttributeError, O).
Proof.
  induction V as [|w V IH]; intros prices O.
  - simpl. unfold ret. now rewrite app_nil_r.
  - rewrite for_in_cons, listed_cons.
    unfold seller_price_step at 1, bind, get, lift, ret.
    destruct (Py.contains (Py.str (Kod w)) O); [|apply IH].
    simpl forallb. destruct (text_price w) eqn:Ht.
    + destruct (text_price_converted w Ht) as [-> _].
      rewrite IH. simpl andb.
      destruct (forallb text_price (listed O V)); [|reflexivity].
      simpl map. now rewrite <- app_assoc.
    + now rewrite (not_text_price_raises w Ht).
Qed.

Lemma priced_int `{PI : Py.PyInt} (w : watch) :
  priced_within_limit w = true ->
  Seller.price_conversion (Tsena w) = Ok (converted w)
  /\ Py.int_text (converted w) = Ok (digits_value (converted w) 0)
  /\ 0 <= digits_value (converted w) 0.
Proof.
  unfold priced_within_limit, priced. intros H.
  apply andb_prop in H as [H Hlen]. apply andb_prop in H as [Ht Hne].
  apply Nat.leb_le in Hlen.
  destruct (text_price_converted w Ht) as [Hc Hd]. split; [exact Hc|].
  split; [|apply digits_value_nonneg; [exact Hd|lia]].
  apply int_text_all_digits; [exact Hd| |exact Hlen].
  intros Heq. rewrite Heq in Hne. discriminate.
Qed.

Lemma market_prices_ok `{PI : Py.PyInt} (V : list watch) :
  forall prices O,
    forallb priced_within_limit (listed O V) = true ->
    for_in V market_price_step prices O
    = (Ok (prices ++ map market_price_of (listed O V)), O).
Proof.
  induction V as [|w V IH]; intros prices O Hall.
  - simpl. unfold ret. now rewrite app_nil_r.
  - rewrite for_in_cons. rewrite listed_cons in Hall |- *.
    unfold market_price_step at 1, bind, get, lift, ret.
    destruct (Py.contains (Py.str (Kod w)) O); [|now apply IH].
    simpl in Hall. apply andb_prop in Hall as [Hw HV].
    destruct (priced_int w Hw) as [-> [-> _]].
    rewrite (IH _ _ HV). simpl map. now rewrite <- app_assoc.
Qed.

(** A record without a digit before the period, or one that is not a
    text, makes the loop of market.py raise: at that record, or at an
    earlier one whose digits [int()] does not take. *)
Lemma market_prices_raise `{PI : Py.PyInt} (V : list watch) :
  forall prices O,
    forallb priced (listed O V) = false ->
    exists e,
      for_in V market_price_step prices O = (Raise e, O)
      /\ (e = AttributeError \/ e = ValueError)
      /\ (forallb text_price (listed O V) = true -> e = ValueError).
Proof.
  induction V as [|w V IH]; intros prices O Hall; [discriminate|].
  rewrite for_in_cons. rewrite listed_cons in Hall |- *.
  unfold market_price_step at 1, bind, get, lift, ret.
  destruct (Py.contains (Py.str (Kod w)) O); [|now apply IH].
  cbn [forallb] in Hall |- *. destruct (text_price w) eqn:Ht.
  - destruct (text_price_converted w Ht) as [-> _].
    destruct (Py.int_text (converted w)) as [value|e] eqn:Hint.
    + assert (Hw : priced w = true).
      { unfold priced. rewrite Ht. simpl.
        destruct (String.eqb_spec (converted w) ""); [|reflexivity].
        rewrite e, Py.int_text_empty in Hint. discriminate. }
      rewrite Hw in Hall. simpl in Hall.
      destruct (IH (prices ++
                      [ {| Market.id := Py.str (Kod w);
                           Market.price :=
                             {| Market.value := value;
                                Market.currencyId := "RUR" |} |} ])
                   O Hall) as [e [Hrun [He Htext]]].
      exists e. split; [exact Hrun|]. split; [exact He|].
      intros H. now apply Htext.
    + apply Py.int_text_raises in Hint. subst e.
      exists ValueError. repeat split; auto.
  - rewrite (not_text_price_raises w Ht).
    exists AttributeError. repeat split; auto. discriminate.
Qed.

(** X6.  When the price of every vendor record whose code is in the list
    is a text, [create_prices] of seller.py returns one price record per
    such vendor record, in the vendor's order and once for each repetition
    of a code: currency RUB, old price ["0"], auto action UNKNOWN and the
    converted price, a text of digits (possibly empty). *)
Theorem seller_create_prices_returns (V : list watch) (O : list string) :
  forallb text_price (listed O V) = true ->
  Seller.create_prices V O = (Ok (map seller_price_of (listed O V)), O)
  /\ Forall (fun w =>
               Seller.price_conversion (Tsena w)
               = Ok (Seller.price (seller_price_of w))
               /\ all_digits (Seller.price (seller_price_of w)) = true)
            (listed O V).
Proof.
  intros Hall. split.
  - rewrite seller_create_prices_loop, seller_prices_run, Hall. reflexivity.
  - apply Forall_forall. intros w Hw.
    apply text_price_converted.
    rewrite forallb_forall in Hall. now apply Hall.
Qed.

Lemma seller_create_prices_returns_witness :
  forallb text_price (listed ["A"; "B"] [watch_A; watch_A_again]) = true
  /\ Seller.create_prices [watch_A; watch_A_again] ["A"; "B"]
     = (Ok [seller_price "A" "10"; seller_price "A" "12"], ["A"; "B"]).
Proof.
  split; [reflexivity|].
  exact (proj1 (seller_create_prices_returns
                  [watch_A; watch_A_again] ["A"; "B"] eq_refl)).
Defined.

(** X7.  When some vendor record whose code is in the list has a price
    that is not a text, [create_prices] of seller.py raises
    [AttributeError], and [create_prices] of market.py raises too
    ([AttributeError], or [ValueError] from an earlier record); the list
    is as it was. *)
Theorem create_prices_rejects_non_text `{PI : Py.PyInt} (V : list watch) (O : list string) :
  forallb text_price (listed O V) = false ->
  Seller.create_prices V O = (Raise AttributeError, O)
  /\ exists e,
      Market.create_prices V O = (Raise e, O)
      /\ (e = AttributeError \/ e = ValueError).
Proof.
  intros Hall. split.
  - rewrite seller_create_prices_loop, seller_prices_run, Hall. reflexivity.
  - assert (Hp : forallb priced (listed O V) = false).
    { destruct (forallb priced (listed O V)) eqn:Hp; [|reflexivity].
      rewrite <- Hall. symmetry. apply forallb_forall. intros w Hw.
      rewrite forallb_forall in Hp. specialize (Hp w Hw).
      unfold priced in Hp. now apply andb_prop in Hp as [Ht _]. }
    rewrite market_create_prices_loop.
    destruct (market_prices_raise V [] O Hp) as [e [Hrun [He _]]].
    exists e. auto.
Qed.

Lemma create_prices_rejects_non_text_witness :
  forallb text_price (listed ["A"] [watch_number_price]) = false
  /\ Seller.create_prices [watch_number_price] ["A"]
     = (Raise AttributeError, ["A"]).
Proof.
  split; [reflexivity|].
  exact (proj1 (create_prices_rejects_non_text
                  [watch_number_price] ["A"] eq_refl)).
Defined.

(** X8.  When the price of every vendor record whose code is in the list
    is a text with at least one digit, and at most [max_str_digits]
    digits, before its first period, [create_prices] of market.py returns
    one record per such vendor record, in the vendor's order: currency RUR
    and, as value, the number those digits write, never negative. *)
Theorem market_create_prices_returns `{PI : Py.PyInt}
        (V : list watch) (O : list string) :
  forallb priced_within_limit (listed O V) = true ->
  Market.create_prices V O = (Ok (map market_price_of (listed O V)), O)
  /\ Forall (fun w =>
               Seller.price_conversion (Tsena w) = Ok (converted w)
               /\ Py.int_text (converted w)
                  = Ok (Market.value (Market.price (market_price_of w)))
               /\ 0 <= Market.value (Market.price (market_price_of w)))
            (listed O V).
Proof.
  intros Hall. split.
  - rewrite market_create_prices_loop. now apply market_prices_ok.
  - apply Forall_forall. intros w Hw.
    rewrite forallb_forall in Hall. now apply priced_int, Hall.
Qed.

Lemma market_create_prices_returns_witness :
  forallb priced_within_limit (listed scenario_offer_ids scenario_records)
  = true
  /\ Market.create_prices scenario_records scenario_offer_ids
     = (Ok [ {| Market.id := "A1";
                Market.price := {| Market.value := 100;
                                   Market.currencyId := "RUR" |} |};
             {| Market.id := "A2";
                Market.price := {| Market.value := 50;
                                   Market.currencyId := "RUR" |} |} ],
        scenario_offer_ids).
Proof.
  split; [reflexivity|].
  exact (proj1 (market_create_prices_returns
                  scenario_records scenario_offer_ids eq_refl)).
Defined.

(** X9.  When the prices of the vendor records whose code is in the list
    are all texts but one of them has no digit before its first period,
    the two marketplaces part: seller.py returns its records, with an
    empty price text for that one, and market.py raises [ValueError]. *)
Theorem create_prices_without_digits `{PI : Py.PyInt} (V : list watch) (O : list string) :
  forallb text_price (listed O V) = true ->
  forallb priced (listed O V) = false ->
  Seller.create_prices V O = (Ok (map seller_price_of (listed O V)), O)
  /\ (exists w, In w (listed O V) /\ Seller.price (seller_price_of w) = "")
  /\ Market.create_prices V O = (Raise ValueError, O).
Proof.
  intros Ht Hp. repeat apply conj.
  - rewrite seller_create_prices_loop, seller_prices_run, Ht. reflexivity.
  - destruct (forallb_forall priced (listed O V)) as [_ Hall].
    assert (Hex : exists w, In w (listed O V) /\ priced w = false).
    { clear Hall. induction (listed O V) as [|w l IH]; [discriminate|].
      simpl in Hp, Ht. apply andb_prop in Ht as [Htw Htl].
      destruct (priced w) eqn:Hw.
      - destruct (IH Htl Hp) as [w' [Hin H]]. exists w'. split; [now right|auto].
      - exists w. split; [now left|auto]. }
    destruct Hex as [w [Hin Hw]]. exists w. split; [exact Hin|].
    rewrite forallb_forall in Ht. unfold priced in Hw.
    rewrite (Ht w Hin) in Hw. simpl in Hw.
    now apply negb_false_iff, String.eqb_eq in Hw.
  - rewrite market_create_prices_loop.
    destruct (market_prices_raise V [] O Hp) as [e [Hrun [_ He]]].
    now rewrite Hrun, (He Ht).
Qed.

Lemma create_prices_without_digits_witness :
  forallb text_price (listed ["A"] [watch_no_digits]) = true
  /\ forallb priced (listed ["A"] [watch_no_digits]) = false
  /\ Seller.create_prices [watch_no_digits] ["A"]
     = (Ok [seller_price "A" ""], ["A"])
  /\ Market.create_prices [watch_no_digits] ["A"] = (Raise ValueError, ["A"]).
Proof.
  split; [reflexivity|]. split; [reflexivity|].
  pose proof (create_prices_without_digits [watch_no_digits] ["A"]
                eq_refl eq_refl) as [H1 [_ H2]].
  split; [exact H1 | exact H2].
Defined.

(** ** Quantities written as decimal numerals *)

Lemma uint_all_digits (d : Decimal.uint) :
  all_digits (NilEmpty.string_of_uint d) = true.
Proof. induction d; simpl; auto. Qed.

Lemma uint_nonempty (d : Decimal.uint) :
  d <> Decimal.Nil -> NilEmpty.string_of_uint d <> "".
Proof. destruct d; simpl; congruence. Qed.

Lemma nilzero_nonnil (d : Decimal.uint) :
  d <> Decimal.Nil -> NilZero.string_of_uint d = NilEmpty.string_of_uint d.
Proof. destruct d; [congruence|reflexivity..]. Qed.

Ltac digit_step IH :=
  match goal with
  | |- context [Py.digit_val ?c] =>
      let x := eval vm_compute in (Py.digit_val c) in
      change (Py.digit_val c) with x
  end;
  match goal with
  | |- digits_value _ ?v = Z.pos (Pos.of_uint_acc _ ?a) =>
      replace v with (Z.pos a) by lia
  end;
  apply IH.

Lemma digits_value_acc (d : Decimal.uint) :
  forall acc,
    digits_value (NilEmpty.string_of_uint d) (Z.pos acc)
    = Z.pos (Pos.of_uint_acc d acc).
Proof.
  induction d as [|d IH|d IH|d IH|d IH|d IH|d IH|d IH|d IH|d IH|d IH];
    intros acc;
    cbn [NilEmpty.string_of_uint digits_value Pos.of_uint_acc];
    [reflexivity | digit_step IH ..].
Qed.

Lemma digits_value_uint (d : Decimal.uint) :
  digits_value (NilEmpty.string_of_uint d) 0 = Z.of_N (Pos.of_uint d).
Proof.
  induction d as [|d IH|d IH|d IH|d IH|d IH|d IH|d IH|d IH|d IH|d IH];
    cbn [NilEmpty.string_of_uint digits_value Pos.of_uint];
    [reflexivity | exact IH | ..];
    match goal with
    | |- context [Py.digit_val ?c] =>
        let x := eval vm_compute in (10 * 0 + Py.digit_val c) in
        change (10 * 0 + Py.digit_val c) with x
    end;
    apply digits_value_acc.
Qed.

(** [int(str(z))] is [z], for a numeral within the limit. *)
Lemma int_str_roundtrip `{PI : Py.PyInt} (z : Z) :
  (String.length (Py.str (VInt z)) <= Py.max_str_digits)%nat ->
  Py.int (VStr (Py.str (VInt z))) = Ok z.
Proof.
  destruct z as [|p|p];
    cbn [Py.int Py.str Z.to_int NilZero.string_of_int]; intros Hlen.
  - apply (Py.int_text_digits "0" 0); [exact Hlen|reflexivity].
  - pose proof (DecimalPos.Unsigned.to_uint_nonnil p) as Hnil.
    rewrite (nilzero_nonnil _ Hnil) in Hlen |- *.
    rewrite (proj1 (int_text_all_digits _ (uint_all_digits _)
                      (uint_nonempty _ Hnil) Hlen)).
    now rewrite digits_value_uint, DecimalPos.Unsigned.of_to.
  - pose proof (DecimalPos.Unsigned.to_uint_nonnil p) as Hnil.
    rewrite (nilzero_nonnil _ Hnil) in Hlen |- *.
    cbn [String.length] in Hlen.
    rewrite (proj2 (int_text_all_digits _ (uint_all_digits _)
                      (uint_nonempty _ Hnil) ltac:(lia))).
    now rewrite digits_value_uint, DecimalPos.Unsigned.of_to.
Qed.

(** The numeral of an integer starts with a digit or a minus sign. *)
Lemma str_int_not_gt10 (z : Z) : Py.str (VInt z) <> ">10".
Proof.
  destruct z as [|p|p]; cbn [Py.str Z.to_int NilZero.string_of_int];
    [discriminate| |discriminate].
  pose proof (DecimalPos.Unsigned.to_uint_nonnil p) as Hnil.
  rewrite (nilzero_nonnil _ Hnil). intros Heq.
  pose proof (uint_all_digits (Pos.to_uint p)) as Hd.
  rewrite Heq in Hd. discriminate.
Qed.

Lemma str_int_one (z : Z) : Py.str (VInt z) = "1" -> z = 1.
Proof.
  intros Heq.
  pose proof (int_str_roundtrip (PI := Py.ascii_PyInt) z) as Hrt.
  rewrite Heq in Hrt.
  specialize (Hrt ltac:(apply Nat.leb_le; reflexivity)).
  now injection Hrt as <-.
Qed.

Lemma normalize_decimal `{PI : Py.PyInt} (z : Z) :
  z <> 1 ->
  (String.length (Py.str (VInt z)) <= Py.max_str_digits)%nat ->
  normalize (VStr (Py.str (VInt z))) = Ok z /\ normalize (VInt z) = Ok z.
Proof.
  intros Hz Hlen. pose proof (int_str_roundtrip z Hlen) as Hrt.
  pose proof (str_int_not_gt10 z) as H10.
  assert (H1 : Py.str (VInt z) <> "1")
    by (intros Heq; now apply Hz, str_int_one).
  unfold normalize. cbn [Py.str] in *.
  destruct (String.eqb_spec (NilZero.string_of_int (Z.to_int z)) ">10");
    [contradiction|].
  destruct (String.eqb_spec (NilZero.string_of_int (Z.to_int z)) "1");
    [contradiction|].
  split; [exact Hrt | reflexivity].
Qed.



(** ** The Ozon loop when the total is overshot *)

Lemma seller_fetched_count_mono
      (W : Type)
      (get_product_list :
         string -> string -> string -> W -> Seller.product_page * W)
      (client_id seller_token : string) (w : W) (j k : nat) :
  (j <= k)%nat ->
  fetched_count W get_product_list client_id seller_token j w
  <= fetched_count W get_product_list client_id seller_token k w.
Proof.
  intros Hjk. unfold fetched_count, Seller.pages_upto.
  replace (S k) with (S j + (k - j))%nat by lia.
  rewrite seq_app, map_app, flat_map_app, length_app. lia.
Qed.

(** X11.  The Ozon loop stops on equality only.  If no page up to page
    [j] signals the end, the pages [0 .. j] hold more products than [T],
    and no later page reports a total above [T], then [get_offer_ids]
    never returns, however many requests it is allowed. *)
Theorem ozon_overshoot_never_returns
        (W : Type)
        (get_product_list :
           string -> string -> string -> W -> Seller.product_page * W)
        (client_id seller_token : string) (w : W) (T : Z) (j : nat) :
  (forall i, (i < j)%nat ->
             Seller.signals_end W get_product_list client_id seller_token i w
             = false) ->
  T < fetched_count W get_product_list client_id seller_token j w ->
  (forall k, (j <= k)%nat ->
             Seller.total
               (Seller.response W get_product_list client_id seller_token k w)
             <= T) ->
  forall fuel,
    Seller.get_offer_ids W get_product_list client_id seller_token fuel w
    = None.
Proof.
  intros Hbefore Hover Htotal fuel.
  apply seller_get_offer_ids_starves. intros i _.
  destruct (Nat.lt_ge_cases i j) as [Hlt|Hge]; [now apply Hbefore|].
  unfold Seller.signals_end. apply Z.eqb_neq.
  pose proof (seller_fetched_count_mono W get_product_list client_id
                seller_token w j i Hge) as Hmono.
  specialize (Htotal i Hge). unfold fetched_count in *. lia.
Qed.

Lemma ozon_overshoot_never_returns_witness :
  1 < fetched_count unit ozon_overshooting "client" "token" 0 tt
  /\ Seller.get_offer_ids unit ozon_overshooting "client" "token" 1000 tt
     = None.
Proof.
  split; [reflexivity|].
  apply (ozon_overshoot_never_returns
           unit ozon_overshooting "client" "token" tt 1 0).
  - intros i Hi. inversion Hi.
  - reflexivity.
  - intros k _. unfold Seller.response.
    destruct (Seller.before_request unit ozon_overshooting "client" "token"
                k tt) as [[last_id product_list] w1].
    simpl. discriminate.
Defined.

(** ** Sending in batches *)

(** The batches handed over are the first ones, in order; all of them
    when no request raised; up to the one that was refused otherwise. *)
Lemma send_all_prefix {W P} (update : P -> W -> option requests_exn * W)
      (batches : list P) :
  forall w sent failure w',
    send_all update batches w = (sent, failure, w') ->
    exists rest,
      batches = sent ++ rest
      /\ (failure = None -> rest = [])
      /\ (forall e, failure = Some e ->
            exists before refused w0,
              sent = before ++ [refused]
              /\ update refused w0 = (Some e, w')).
Proof.
  induction batches as [|b batches IH]; intros w sent failure w' Hrun.
  - injection Hrun as <- <- <-. exists []. repeat split; auto. discriminate.
  - simpl in Hrun. destruct (update b w) as [[e|] w1] eqn:Hb.
    + injection Hrun as <- <- <-. exists batches. repeat split.
      * discriminate.
      * intros e' He. injection He as <-. exists [], b, w. auto.
    + destruct (send_all update batches w1) as [[sent1 failure1] w2] eqn:Hrest.
      injection Hrun as <- <- <-.
      destruct (IH _ _ _ _ Hrest) as [rest [Heq [Hnone Hsome]]].
      exists rest. repeat split; [now rewrite Heq | exact Hnone |].
      intros e He. destruct (Hsome e He) as (before & refused & w0 & -> & Hu).
      exists (b :: before), refused, w0. auto.
Qed.

Lemma divide_facts {A} (lst : list A) (n : Z) (batches : list (list A)) :
  0 < n ->
  Seller.divide lst n = Ok batches ->
  List.concat batches = lst
  /\ Forall (fun c => 1 <= Z.of_nat (List.length c) <= n) batches
  /\ Z.of_nat (List.length batches) = ceil_div (Z.of_nat (List.length lst)) n.
Proof.
  intros Hn Hrun. rewrite (divide_chunks lst n Hn) in Hrun.
  injection Hrun as <-.
  set (len := Z.of_nat (List.length lst)).
  pose proof (ceil_div_spec len n Hn ltac:(lia)) as Hceil.
  set (c := Z.to_nat (ceil_div len n)).
  set (p := Z.to_nat n).
  assert (Hc : Z.of_nat c = ceil_div len n) by (unfold c; nia).
  assert (Hp : Z.of_nat p = n) by (unfold p; lia).
  repeat apply conj.
  - rewrite concat_chunks. apply firstn_all2. nia.
  - apply Forall_forall. intros ch Hin. apply in_map_iff in Hin as [k [<- Hk]].
    apply in_seq in Hk. rewrite length_firstn, length_skipn. nia.
  - now rewrite length_map, length_seq.
Qed.

Lemma sent_all_of_run {W A} (update : list A -> W -> option requests_exn * W)
      (payload : list A) (n : Z) (batches : list (list A))
      (w : W) (sent : list (list A)) (w' : W) :
  0 < n ->
  Seller.divide payload n = Ok batches ->
  send_all update batches w = (sent, None, w') ->
  sent_all n payload sent.
Proof.
  intros Hn Hdiv Hrun.
  destruct (send_all_prefix _ _ _ _ _ _ Hrun) as [rest [Heq [Hnone _]]].
  rewrite (Hnone eq_refl), app_nil_r in Heq. subst batches.
  now apply divide_facts.
Qed.

(** A run that ends on a raising request: the requests before it all
    returned, it is the last batch handed over, and the world is the one
    it left. *)
Lemma send_all_refused {W P} (update : P -> W -> option requests_exn * W)
      (batches : list P) :
  forall w sent e w',
    send_all update batches w = (sent, Some e, w') ->
    exists before refused rest w_mid,
      sent = before ++ [refused]
      /\ batches = before ++ refused :: rest
      /\ send_all update before w = (before, None, w_mid)
      /\ update refused w_mid = (Some e, w').
Proof.
  induction batches as [|b batches IH]; intros w sent e w' Hrun;
    [discriminate|].
  simpl in Hrun. destruct (update b w) as [[e0|] w1] eqn:Hb.
  - injection Hrun as <- <- <-. exists [], b, batches, w. auto.
  - destruct (send_all update batches w1) as [[sent1 failure1] w2] eqn:Hrest.
    injection Hrun as <- -> <-.
    destruct (IH _ _ _ _ Hrest)
      as (before & refused & rest & w_mid & -> & -> & Hbefore & Hrefused).
    exists (b :: before), refused, rest, w_mid.
    repeat split; auto. simpl. now rewrite Hb, Hbefore.
Qed.

Lemma sent_until_refused_of_run {W A}
      (update : list A -> W -> option requests_exn * W)
      (payload : list A) (n : Z) (batches : list (list A))
      (w : W) (sent : list (list A)) (e : requests_exn) (w' : W) :
  Seller.divide payload n = Ok batches ->
  send_all update batches w = (sent, Some e, w') ->
  sent_until_refused update n payload w sent e w'.
Proof.
  intros Hdiv Hrun.
  destruct (send_all_refused _ _ _ _ _ _ Hrun)
    as (before & refused & rest & w_mid & Hsent & Hb & Hbefore & Hrefused).
  exists before, refused, rest, w_mid. rewrite <- Hb. auto.
Qed.

Ltac stage H :=
  match type of H with
  | match ?x with _ => _ end = _ => destruct x eqn:?
  end.

Ltac stages H := repeat (stage H; try discriminate H).

Ltac use_run :=
  match goal with
  | Hd : Seller.divide ?p ?n = Ok ?b, Hs : send_all _ ?b _ = (_, None, _)
    |- sent_all ?n ?p _ =>
      exact (sent_all_of_run _ p n b _ _ _ ltac:(lia) Hd Hs)
  | Hd : Seller.divide ?p ?n = Ok ?b,
    Hs : send_all ?u ?b ?w1 = (_, Some ?e, ?w')
    |- sent_until_refused _ ?n ?p _ _ _ _ =>
      exact (sent_until_refused_of_run u p n b w1 _ e w' Hd Hs)
  end.

(** X12.  When an upload function returns, every record it computed has
    been handed to the marketplace once, in order, in
    [ceil (len / n)] requests of at most [n] records: 1000 prices and 100
    stocks for Ozon, 500 prices and 2000 stocks for Yandex Market; the
    records are those [create_prices], resp. [create_stocks], makes of the
    catalogue just fetched. *)
Theorem uploads_send_every_record `{PI : Py.PyInt} :
  (forall W get_product_list update_price V client_id seller_token fuel
          (w : W) sent prices w',
      SellerUpload.upload_prices W get_product_list update_price V
        client_id seller_token fuel w = Some (sent, Returned prices, w') ->
      (exists offer_ids w1,
          Seller.get_offer_ids W get_product_list client_id seller_token
            fuel w = Some (offer_ids, w1)
          /\ fst (Seller.create_prices V offer_ids) = Ok prices)
      /\ sent_all 1000 prices sent)
  /\ (forall W get_product_list update_stocks V client_id seller_token fuel
             (w : W) sent not_empty stocks w',
      SellerUpload.upload_stocks W get_product_list update_stocks V
        client_id seller_token fuel w
      = Some (sent, Returned (not_empty, stocks), w') ->
      (exists offer_ids w1,
          Seller.get_offer_ids W get_product_list client_id seller_token
            fuel w = Some (offer_ids, w1)
          /\ fst (Seller.create_stocks V offer_ids) = Ok stocks)
      /\ sent_all 100 stocks sent)
  /\ (forall W get_product_list update_price V campaign_id market_token fuel
             (w : W) sent prices w',
      MarketUpload.upload_prices W get_product_list update_price V
        campaign_id market_token fuel w = Some (sent, Returned prices, w') ->
      (exists offer_ids w1,
          Market.get_offer_ids W get_product_list campaign_id market_token
            fuel w = Some (offer_ids, w1)
          /\ fst (Market.create_prices V offer_ids) = Ok prices)
      /\ sent_all 500 prices sent)
  /\ (forall W get_product_list update_stocks date V campaign_id market_token
             warehouse_id fuel (w : W) sent not_empty stocks w',
      MarketUpload.upload_stocks W get_product_list update_stocks date V
        campaign_id market_token warehouse_id fuel w
      = Some (sent, Returned (not_empty, stocks), w') ->
      (exists offer_ids w1,
          Market.get_offer_ids W get_product_list campaign_id market_token
            fuel w = Some (offer_ids, w1)
          /\ fst (Market.create_stocks date V warehouse_id offer_ids)
             = Ok stocks)
      /\ sent_all 2000 stocks sent).
Proof.
  repeat apply conj; intros.
  - unfold SellerUpload.upload_prices in H. stages H.
    injection H as <- <- <-. split; [|use_run].
    do 2 eexists. split; [reflexivity|].
    match goal with Hc : Seller.create_prices _ _ = _ |- _ => now rewrite Hc end.
  - unfold SellerUpload.upload_stocks in H. stages H.
    injection H as <- <- <- <-. split; [|use_run].
    do 2 eexists. split; [reflexivity|].
    match goal with Hc : Seller.create_stocks _ _ = _ |- _ => now rewrite Hc end.
  - unfold MarketUpload.upload_prices in H. stages H.
    injection H as <- <- <-. split; [|use_run].
    do 2 eexists. split; [reflexivity|].
    match goal with Hc : Market.create_prices _ _ = _ |- _ => now rewrite Hc end.
  - unfold MarketUpload.upload_stocks in H. stages H.
    injection H as <- <- <- <-. split; [|use_run].
    do 2 eexists. split; [reflexivity|].
    match goal with
      Hc : Market.create_stocks _ _ _ _ = _ |- _ => now rewrite Hc
    end.
Qed.

(** X13.  When a marketplace request raises inside an upload function,
    the function raises with it at once.  The batches handed over are the
    first batches of the records computed; the requests for all but the
    last of them returned, one after the other from the world the
    catalogue fetch left; the request for the last one is the one that
    raised, the exception is the one the function ends with, and the world
    is the one that request left: no later batch is sent. *)
Theorem uploads_stop_at_refused_batch `{PI : Py.PyInt} :
  (forall W get_product_list update_price V client_id seller_token fuel
          (w : W) sent e w',
      SellerUpload.upload_prices W get_product_list update_price V
        client_id seller_token fuel w = Some (sent, RequestRaised e, w') ->
      exists offer_ids w1 prices,
        Seller.get_offer_ids W get_product_list client_id seller_token
          fuel w = Some (offer_ids, w1)
        /\ fst (Seller.create_prices V offer_ids) = Ok prices
        /\ sent_until_refused
             (fun some_price => update_price some_price client_id seller_token)
             1000 prices w1 sent e w')
  /\ (forall W get_product_list update_stocks V client_id seller_token fuel
             (w : W) sent e w',
      SellerUpload.upload_stocks W get_product_list update_stocks V
        client_id seller_token fuel w = Some (sent, RequestRaised e, w') ->
      exists offer_ids w1 stocks,
        Seller.get_offer_ids W get_product_list client_id seller_token
          fuel w = Some (offer_ids, w1)
        /\ fst (Seller.create_stocks V offer_ids) = Ok stocks
        /\ sent_until_refused
             (fun some_stock => update_stocks some_stock client_id seller_token)
             100 stocks w1 sent e w')
  /\ (forall W get_product_list update_price V campaign_id market_token fuel
             (w : W) sent e w',
      MarketUpload.upload_prices W get_product_list update_price V
        campaign_id market_token fuel w = Some (sent, RequestRaised e, w') ->
      exists offer_ids w1 prices,
        Market.get_offer_ids W get_product_list campaign_id market_token
          fuel w = Some (offer_ids, w1)
        /\ fst (Market.create_prices V offer_ids) = Ok prices
        /\ sent_until_refused
             (fun some_prices =>
                update_price some_prices campaign_id market_token)
             500 prices w1 sent e w')
  /\ (forall W get_product_list update_stocks date V campaign_id market_token
             warehouse_id fuel (w : W) sent e w',
      MarketUpload.upload_stocks W get_product_list update_stocks date V
        campaign_id market_token warehouse_id fuel w
      = Some (sent, RequestRaised e, w') ->
      exists offer_ids w1 stocks,
        Market.get_offer_ids W get_product_list campaign_id market_token
          fuel w = Some (offer_ids, w1)
        /\ fst (Market.create_stocks date V warehouse_id offer_ids)
           = Ok stocks
        /\ sent_until_refused
             (fun some_stock =>
                update_stocks some_stock campaign_id market_token)
             2000 stocks w1 sent e w').
Proof.
  repeat apply conj; intros.
  - unfold SellerUpload.upload_prices in H. stages H.
    injection H as <- <- <-. do 3 eexists. split; [reflexivity|].
    split;
      [match goal with Hc : Seller.create_prices _ _ = _ |- _ => now rewrite Hc end
      |use_run].
  - unfold SellerUpload.upload_stocks in H. stages H.
    injection H as <- <- <-. do 3 eexists. split; [reflexivity|].
    split;
      [match goal with Hc : Seller.create_stocks _ _ = _ |- _ => now rewrite Hc end
      |use_run].
  - unfold MarketUpload.upload_prices in H. stages H.
    injection H as <- <- <-. do 3 eexists. split; [reflexivity|].
    split;
      [match goal with Hc : Market.create_prices _ _ = _ |- _ => now rewrite Hc end
      |use_run].
  - unfold MarketUpload.upload_stocks in H. stages H.
    injection H as <- <- <-. do 3 eexists. split; [reflexivity|].
    split;
      [match goal with
         Hc : Market.create_stocks _ _ _ _ = _ |- _ => now rewrite Hc
       end
      |use_run].
Qed.

Lemma uploads_send_every_record_witness :
  SellerUpload.upload_stocks _ Seller.scripted accept_all [watch_A]
    "client" "token" 2 ozon_catalog
  = Some ([[seller_stock "A" 5; seller_stock "B" 0; seller_stock "C" 0]],
          Returned ([seller_stock "A" 5],
                    [seller_stock "A" 5; seller_stock "B" 0;
                     seller_stock "C" 0]),
          [])
  /\ sent_all 100
       [seller_stock "A" 5; seller_stock "B" 0; seller_stock "C" 0]
       [[seller_stock "A" 5; seller_stock "B" 0; seller_stock "C" 0]].
Proof.
  split; [reflexivity|].
  destruct uploads_send_every_record as [_ [Hstocks _]].
  exact (proj2 (Hstocks _ Seller.scripted accept_all [watch_A]
                  "client" "token" 2%nat ozon_catalog _ _ _ _ eq_refl)).
Defined.

Lemma uploads_stop_at_refused_batch_witness :
  SellerUpload.upload_stocks _ Seller.scripted refuse_all [watch_A]
    "client" "token" 2 ozon_catalog
  = Some ([[seller_stock "A" 5; seller_stock "B" 0; seller_stock "C" 0]],
          RequestRaised HTTPError, [])
  /\ exists offer_ids w1 stocks,
      Seller.get_offer_ids _ Seller.scripted "client" "token" 2 ozon_catalog
      = Some (offer_ids, w1)
      /\ fst (Seller.create_stocks [watch_A] offer_ids) = Ok stocks
      /\ sent_until_refused
           (fun some_stock => refuse_all some_stock "client" "token")
           100 stocks w1
           [[seller_stock "A" 5; seller_stock "B" 0; seller_stock "C" 0]]
           HTTPError [].
Proof.
  split; [reflexivity|].
  destruct uploads_stop_at_refused_batch as [_ [Hstocks _]].
  exact (Hstocks _ Seller.scripted refuse_all [watch_A]
           "client" "token" 2%nat ozon_catalog _ _ _ eq_refl).
Defined.

(** ** The stocks reported as not empty *)

Lemma filter_not_empty_covers `{PI : Py.PyInt} {R} (id_of : R -> string) (count_of : R -> Z)
      (V : list watch) (O : list string) (stocks : list R) (O' : list string) :
  covers id_of count_of V O stocks O' ->
  Forall (fun r => count_of r <> 0 /\ from_vendor id_of count_of V r)
         (filter (fun r => negb (count_of r =? 0)) stocks).
Proof.
  intros (_ & _ & (matched & fallbacks & -> & _ & Hzero & Hvendor) & _).
  apply Forall_forall. intros r Hr. apply filter_In in Hr as [Hin Hnz].
  apply negb_true_iff, Z.eqb_neq in Hnz. split; [exact Hnz|].
  apply in_app_or in Hin as [Hin|Hin].
  - rewrite Forall_forall in Hvendor. now apply Hvendor.
  - rewrite Forall_forall in Hzero. now specialize (Hzero r Hin).
Qed.

Lemma market_filter_not_empty (date warehouse_id : string)
      (pairs : list (string * Z)) :
  MarketUpload.filter_not_empty
    (map (fun p => market_stock date warehouse_id (fst p) (snd p)) pairs)
  = Ok (filter (fun r => negb (market_count r =? 0))
               (map (fun p => market_stock date warehouse_id (fst p) (snd p))
                    pairs)).
Proof.
  induction pairs as [|[i n] pairs IH]; [reflexivity|].
  cbn [map MarketUpload.filter_not_empty fst snd]. rewrite IH.
  cbn [filter]. reflexivity.
Qed.

Lemma market_stocks_not_empty `{PI : Py.PyInt} (date warehouse_id : string) (V : list watch)
      (O : list string) (stocks : list Market.stock_record) (O' : list string) :
  Market.create_stocks date V warehouse_id O = (Ok stocks, O') ->
  MarketUpload.filter_not_empty stocks
  = Ok (filter (fun r => negb (market_count r =? 0)) stocks).
Proof.
  rewrite market_create_stocks_reconcile,
    (reconcile_pairs_image _ (market_stock date warehouse_id)).
  destruct (reconcile_pairs V O) as [[l|e] O1]; [|discriminate].
  intros H; injection H as <- <-. apply market_filter_not_empty.
Qed.

(** X14.  The first list the two [upload_stocks] return holds, in order,
    the stock records sent whose count is not 0, and each of them was made
    from a vendor record with that code and that normalised quantity: no
    zero-stock fallback is in it, and no vendor record whose quantity is
    ["1"].  The filter of market.py never raises: once [create_stocks] has
    returned, [upload_stocks] raises only what a request raises. *)
Theorem upload_stocks_not_empty `{PI : Py.PyInt} :
  (forall W get_product_list update_stocks V client_id seller_token fuel
          (w : W) sent not_empty stocks w',
      SellerUpload.upload_stocks W get_product_list update_stocks V
        client_id seller_token fuel w
      = Some (sent, Returned (not_empty, stocks), w') ->
      not_empty = filter (fun r => negb (Seller.stock r =? 0)) stocks
      /\ Forall (fun r =>
                   Seller.stock r <> 0
                   /\ from_vendor Seller.stock_offer_id Seller.stock V r)
                not_empty)
  /\ (forall W get_product_list update_stocks date V campaign_id market_token
             warehouse_id fuel (w : W) sent not_empty stocks w',
      MarketUpload.upload_stocks W get_product_list update_stocks date V
        campaign_id market_token warehouse_id fuel w
      = Some (sent, Returned (not_empty, stocks), w') ->
      not_empty = filter (fun r => negb (market_count r =? 0)) stocks
      /\ Forall (fun r =>
                   market_count r <> 0
                   /\ from_vendor Market.sku market_count V r)
                not_empty)
  /\ (forall W get_product_list update_stocks date V campaign_id market_token
             warehouse_id fuel (w : W) sent e w',
      MarketUpload.upload_stocks W get_product_list update_stocks date V
        campaign_id market_token warehouse_id fuel w
      = Some (sent, Raised e, w') ->
      sent = []).
Proof.
  repeat apply conj; intros.
  - unfold SellerUpload.upload_stocks in H. stages H.
    injection H as <- <- <- <-. split; [reflexivity|].
    match goal with
      Hc : Seller.create_stocks _ _ = _ |- _ =>
        apply (reconcile_covers _ seller_stock Seller.stock_offer_id
                 Seller.stock (fun _ _ => eq_refl) (fun _ _ => eq_refl)) in Hc;
        exact (filter_not_empty_covers _ _ _ _ _ _ Hc)
    end.
  - unfold MarketUpload.upload_stocks in H. stages H.
    injection H as <- <- <- <-.
    match goal with
      Hc : Market.create_stocks _ _ _ _ = _,
      Hf : MarketUpload.filter_not_empty _ = _ |- _ =>
        rewrite (market_stocks_not_empty _ _ _ _ _ _ Hc) in Hf;
        injection Hf as <-; split; [reflexivity|];
        apply (reconcile_covers _ (market_stock date warehouse_id) Market.sku
                 market_count (fun _ _ => eq_refl) (fun _ _ => eq_refl)) in Hc;
        exact (filter_not_empty_covers _ _ _ _ _ _ Hc)
    end.
  - unfold MarketUpload.upload_stocks in H. stages H;
      try (injection H as <- <- <-; reflexivity).
    match goal with
      Hc : Market.create_stocks _ _ _ _ = _,
      Hf : MarketUpload.filter_not_empty _ = _ |- _ =>
        rewrite (market_stocks_not_empty _ _ _ _ _ _ Hc) in Hf; discriminate Hf
    end.
Qed.

Lemma upload_stocks_not_empty_witness :
  SellerUpload.upload_stocks _ Seller.scripted accept_all
    [watch_A; watch_B_one] "client" "token" 2 ozon_catalog
  = Some ([[seller_stock "A" 5; seller_stock "B" 0; seller_stock "C" 0]],
          Returned ([seller_stock "A" 5],
                    [seller_stock "A" 5; seller_stock "B" 0;
                     seller_stock "C" 0]),
          [])
  /\ Forall (fun r =>
               Seller.stock r <> 0
               /\ from_vendor Seller.stock_offer_id Seller.stock
                    [watch_A; watch_B_one] r)
            [seller_stock "A" 5].
Proof.
  split; [reflexivity|].
  destruct upload_stocks_not_empty as [Hseller _].
  exact (proj2 (Hseller _ Seller.scripted accept_all [watch_A; watch_B_one]
                  "client" "token" 2%nat ozon_catalog _ _ _ _ eq_refl)).
Defined.

(** ** main of seller.py *)

Lemma nodup_A_B_C : NoDup ["A"; "B"; "C"].
Proof. repeat constructor; simpl; intuition discriminate. Qed.

(** X15.  [main] of seller.py computes the prices over the list that
    [create_stocks] has drained.  When the catalogue fetched lists no
    identifier twice, no price request is ever made, whatever the feed
    holds and whatever the marketplace answers. *)
Theorem seller_main_sends_no_price `{PI : Py.PyInt}
        (W : Type)
        (get_product_list :
           string -> string -> string -> W -> Seller.product_page * W)
        (update_price :
           list Seller.price_record -> string -> string -> W
           -> option requests_exn * W)
        (update_stocks :
           list Seller.stock_record -> string -> string -> W
           -> option requests_exn * W)
        (download_stock : W -> option (list watch) * W)
        (client_id seller_token : string) (fuel : nat) (w : W)
        (offer_ids : list string) (w1 : W)
        (sent_stocks : list (list Seller.stock_record))
        (sent_prices : list (list Seller.price_record)) (w' : W) :
  Seller.get_offer_ids W get_product_list client_id seller_token fuel w
  = Some (offer_ids, w1) ->
  NoDup offer_ids ->
  SellerUpload.main W get_product_list update_price update_stocks
    download_stock client_id seller_token fuel w
  = Some (sent_stocks, sent_prices, w') ->
  sent_prices = [].
Proof.
  intros Hcat Hnd Hmain. unfold SellerUpload.main in Hmain.
  rewrite Hcat in Hmain. stages Hmain;
    try (injection Hmain as <- <- <-; reflexivity).
  match goal with
    Hs : Seller.create_stocks ?V offer_ids = (Ok _, ?O'),
    Hp : Seller.create_prices ?V ?O' = (Ok ?prices, _),
    Hd : Seller.divide ?prices 900 = Ok ?batches,
    Hr : send_all _ ?batches _ = _ |- _ =>
      apply (reconcile_covers _ seller_stock Seller.stock_offer_id
               Seller.stock (fun _ _ => eq_refl) (fun _ _ => eq_refl)) in Hs;
      destruct Hs as (_ & _ & _ & Hdrained);
      destruct (Hdrained Hnd) as [_ HO'];
      rewrite create_prices_unmatched in Hp
        by (intros x Hx; rewrite HO'; now apply unmatched_not_contains);
      injection Hp as <- _;
      injection Hd as <-;
      injection Hr as <- _ _
  end.
  now injection Hmain as _ <- _.
Qed.

Lemma seller_main_sends_no_price_witness :
  Seller.get_offer_ids _ Seller.scripted "client" "token" 2 ozon_catalog
  = Some (["A"; "B"; "C"], [])
  /\ NoDup ["A"; "B"; "C"]
  /\ exists sent_prices,
      SellerUpload.main _ Seller.scripted accept_all accept_all feed_A
        "client" "token" 2 ozon_catalog
      = Some ([[seller_stock "A" 5; seller_stock "B" 0; seller_stock "C" 0]],
              sent_prices, [])
      /\ sent_prices = [].
Proof.
  split; [reflexivity|]. split; [exact nodup_A_B_C|].
  exists []. split; [reflexivity|].
  exact (seller_main_sends_no_price
           _ Seller.scripted accept_all accept_all feed_A "client" "token"
           2%nat ozon_catalog ["A"; "B"; "C"] []
           [[seller_stock "A" 5; seller_stock "B" 0; seller_stock "C" 0]]
           [] [] eq_refl nodup_A_B_C eq_refl).
Defined.

(** ** Stocks and prices computed from the same catalogue *)

Section MatchedAreListed.
Context `{PI : Py.PyInt}.
Variable R : Type.
Variable mk : string -> Z -> R.
Variable id_of : R -> string.
Hypothesis id_of_mk : forall i n, id_of (mk i n) = i.

Lemma listed_after_remove (x : string) (O O1 : list string) (V : list watch) :
  Py.remove x O = Ok O1 ->
  ~ In x (codes V) ->
  listed O1 V = listed O V.
Proof.
  intros Hrm Hnot. unfold listed. apply filter_ext_in. intros w Hw.
  assert (Hne : Py.str (Kod w) <> x).
  { intros Heq. apply Hnot. rewrite <- Heq.
    unfold codes. now apply (in_map (fun w => Py.str (Kod w))). }
  assert (Hperm : Permutation (x :: O1) O).
  { destruct (Py.contains x O) eqn:Hc.
    - apply contains_In in Hc. destruct (remove_present _ _ Hc) as [O2 [H2 Hp]].
      rewrite Hrm in H2. now injection H2 as <-.
    - apply contains_not_In in Hc. exfalso. clear -Hrm Hc.
      revert O1 Hrm; induction O as [|y O IH]; simpl; intros O1 Hrm;
        [discriminate|].
      destruct (String.eqb_spec y x); [subst; apply Hc; now left|].
      destruct (Py.remove x O) eqn:E; [|discriminate].
      apply (IH (fun H => Hc (or_intror H)) _ eq_refl). }
  destruct (Py.contains (Py.str (Kod w)) O) eqn:Hc.
  - apply contains_In. apply contains_In in Hc.
    apply (Permutation_in _ (Permutation_sym Hperm)) in Hc.
    destruct Hc as [Heq|Hc]; [congruence|exact Hc].
  - apply contains_not_In. apply contains_not_In in Hc.
    intros Hin. apply Hc. apply (Permutation_in _ Hperm). now right.
Qed.

(** With vendor codes all different, the records the first loop adds are
    those of the vendor records whose code is in the list it was given. *)
Lemma match_loop_listed (V : list watch) :
  forall stocks0 O stocks O',
    NoDup (codes V) ->
    for_in V (reconcile_step R mk) stocks0 O = (Ok stocks, O') ->
    exists matched,
      stocks = stocks0 ++ matched
      /\ map id_of matched = codes (listed O V).
Proof.
  induction V as [|w V IH]; intros stocks0 O stocks O' Hnd Hrun.
  - injection Hrun as <- <-. exists []. now rewrite app_nil_r.
  - simpl in Hnd. inversion Hnd as [|? ? Hnotin Hnd']; subst.
    rewrite for_in_cons, reconcile_step_run in Hrun. rewrite listed_cons.
    destruct (Py.contains (Py.str (Kod w)) O) eqn:Hc;
      [|eapply IH; eassumption].
    destruct (normalize (Kolichestvo w)) as [n|]; [|discriminate].
    destruct (Py.remove (Py.str (Kod w)) O) as [O1|] eqn:Hrm; [|discriminate].
    destruct (IH _ _ _ _ Hnd' Hrun) as [matched [-> Hids]].
    exists (mk (Py.str (Kod w)) n :: matched).
    split; [now rewrite <- app_assoc|].
    simpl. rewrite id_of_mk, Hids.
    now rewrite (listed_after_remove _ _ _ _ Hrm Hnotin).
Qed.
End MatchedAreListed.

(** X16.  When no two vendor records share a code, the stock list and
    the price list that seller.py computes from the same catalogue line
    up: the identifiers of the price records are, in order, those of the
    first stock records (the ones matched to a vendor record), and the
    stock records after them are the zero-stock fallbacks. *)
Theorem seller_prices_follow_stocks `{PI : Py.PyInt}
        (V : list watch) (O : list string)
        (stocks : list Seller.stock_record) (O' : list string) :
  NoDup (codes V) ->
  forallb text_price (listed O V) = true ->
  Seller.create_stocks V O = (Ok stocks, O') ->
  exists prices,
    Seller.create_prices V O = (Ok prices, O)
    /\ map Seller.price_offer_id prices
       = firstn (List.length prices) (map Seller.stock_offer_id stocks)
    /\ skipn (List.length prices) stocks
       = map (fun offer_id => seller_stock offer_id 0) O'.
Proof.
  intros Hnd Htext Hrun.
  exists (map seller_price_of (listed O V)). split.
  - rewrite seller_create_prices_loop, seller_prices_run, Htext. reflexivity.
  - rewrite seller_create_stocks_reconcile in Hrun.
    unfold reconcile, bind, get in Hrun.
    destruct (for_in V (reconcile_step _ seller_stock) [] O)
      as [[st|e] O1] eqn:Hloop; [|discriminate].
    rewrite fallback_loop_run in Hrun. injection Hrun as <- <-.
    destruct (match_loop_listed _ seller_stock Seller.stock_offer_id
                (fun _ _ => eq_refl) V _ _ _ _ Hnd Hloop)
      as [matched [-> Hids]].
    simpl app.
    assert (Hlen : List.length (map seller_price_of (listed O V))
                   = List.length matched).
    { rewrite length_map, <- (length_map Seller.stock_offer_id matched), Hids.
      unfold codes. now rewrite length_map. }
    rewrite Hlen. split.
    + rewrite map_app, firstn_app, length_map, Nat.sub_diag. simpl.
      rewrite app_nil_r, firstn_all2 by (rewrite length_map; lia).
      rewrite Hids, map_map. reflexivity.
    + rewrite skipn_app, Nat.sub_diag, skipn_all2 by lia. reflexivity.
Qed.

Lemma scenario_codes_nodup : NoDup (codes scenario_records).
Proof. repeat constructor; simpl; intuition discriminate. Qed.

Lemma seller_prices_follow_stocks_witness :
  NoDup (codes scenario_records)
  /\ forallb text_price (listed scenario_offer_ids scenario_records) = true
  /\ exists prices,
      Seller.create_prices scenario_records scenario_offer_ids
      = (Ok prices, scenario_offer_ids)
      /\ map Seller.price_offer_id prices
         = firstn (List.length prices) ["A1"; "A2"; "A3"]
      /\ skipn (List.length prices)
           [seller_stock "A1" 100; seller_stock "A2" 0; seller_stock "A3" 0]
         = [seller_stock "A3" 0].
Proof.
  split; [exact scenario_codes_nodup|]. split; [reflexivity|].
  exact (seller_prices_follow_stocks
           scenario_records scenario_offer_ids
           [seller_stock "A1" 100; seller_stock "A2" 0; seller_stock "A3" 0]
           ["A3"] scenario_codes_nodup eq_refl eq_refl).
Defined.
